(** * General distillation (TinyBERT/general_distill.py): model and properties

    A shallow embedding of the pure control and data logic of the
    general-distillation training script: the feature encoder
    [convert_example_to_features], the shard resolution of
    [PregeneratedDataset] and [main], the layer alignment and the
    attention/representation losses, and the epoch/step loop of [main]
    with its counters, checkpoints and log records.

    Conventions.  Python [int] is [Z]; lengths and array sizes are [nat];
    Python and numpy exceptions are values of [PyError] carried by the
    result type [Res].  Tensor entries and losses are rationals ([Q]),
    which stand for the floating-point numbers of the program: only
    comparisons with the constant -100, sums, products and quotients are
    used.  The networks, the optimizer and the samplers are black boxes:
    a batch carries the activations that the two forward passes return on
    it, and side effects are recorded as events in a trace. *)

From Stdlib Require Import ZArith QArith Lia String.
From stdpp Require Import base list.

Local Open Scope Z_scope.

(** ** Exceptions and results *)

Inductive PyError : Type :=
  | IndexError
  | ValueError
  | AssertionError
  | ZeroDivisionError
  | RuntimeError
  | AttributeError
  | SystemExit.

Inductive Res (A : Type) : Type :=
  | Ok (a : A)
  | Raise (e : PyError).

Arguments Ok {A} a.
Arguments Raise {A} e.

Definition bind {A B : Type} (c : Res A) (k : A -> Res B) : Res B :=
  match c with
  | Ok a => k a
  | Raise e => Raise e
  end.

Notation "'let*' x ':=' c 'in' k" := (bind c (fun x => k))
  (at level 10, x name, c at level 100, k at level 200).

Definition is_ok {A : Type} (c : Res A) : Prop :=
  match c with Ok _ => True | Raise _ => False end.

Definition of_option {A : Type} (e : PyError) (o : option A) : Res A :=
  match o with Some a => Ok a | None => Raise e end.

(** [for x in l: acc = body acc x], stopping at the first exception. *)
Fixpoint for_each {A S : Type} (body : S -> A -> Res S) (l : list A) (s : S)
  : Res S :=
  match l with
  | [] => Ok s
  | x :: l' => let* s' := body s x in for_each body l' s'
  end.

(** [[f(x) for x in l]] where [f] may raise. *)
Fixpoint comprehension {A B : Type} (f : A -> Res B) (l : list A)
  : Res (list B) :=
  match l with
  | [] => Ok []
  | x :: l' =>
      let* y := f x in
      let* ys := comprehension f l' in
      Ok (y :: ys)
  end.

(** [range(n)] and [enumerate(l)] with Python integers. *)
Definition range (n : nat) : list Z := Z.of_nat <$> seq 0 n.

Fixpoint enumerate_from {A : Type} (start : Z) (l : list A) : list (Z * A) :=
  match l with
  | [] => []
  | x :: l' => (start, x) :: enumerate_from (start + 1) l'
  end.

Definition enumerate {A : Type} (l : list A) : list (Z * A) :=
  enumerate_from 0 l.

(** Python list subscript [l[j]]: a negative index counts from the end. *)
Definition norm_index (n : nat) (j : Z) : option nat :=
  if (0 <=? j) && (j <? Z.of_nat n) then Some (Z.to_nat j)
  else if (- Z.of_nat n <=? j) && (j <? 0) then Some (Z.to_nat (j + Z.of_nat n))
  else None.

Definition py_get {A : Type} (l : list A) (j : Z) : Res A :=
  match norm_index (length l) j with
  | Some k => of_option IndexError (l !! k)
  | None => Raise IndexError
  end.

(** ** numpy arrays as lists *)

Module Np.

Definition zeros (n : nat) : list Z := replicate n 0.
Definition zeros_bool (n : nat) : list bool := replicate n false.
Definition full (n : nat) (fill_value : Z) : list Z := replicate n fill_value.

(** Broadcasting of a one-dimensional value to [k] entries. *)
Definition broadcast {A : Type} (v : list A) (k : nat) : option (list A) :=
  if decide (length v = k) then Some v
  else match v with
       | [x] => Some (replicate k x)
       | _ => None
       end.

(** [a[:k] = v] for a sequence [v]: the slice is clipped to the array. *)
Definition set_prefix {A : Type} (a : list A) (k : nat) (v : list A)
  : Res (list A) :=
  let m := Nat.min k (length a) in
  match broadcast v m with
  | Some vs => Ok (vs ++ drop m a)
  | None => Raise ValueError
  end.

(** [a[:k] = x] for a scalar [x]. *)
Definition fill_prefix {A : Type} (a : list A) (k : nat) (x : A) : list A :=
  let m := Nat.min k (length a) in
  replicate m x ++ drop m a.

Definition store {A : Type} (a : list A) (jx : nat * A) : list A :=
  <[jx.1 := jx.2]> a.

(** [a[idx] = v] for a list of integer indices: the value is broadcast to
    the index list, every index is checked against the bounds, then the
    entries are written in order (the last write to a position wins). *)
Definition set_at {A : Type} (a : list A) (idx : list Z) (v : list A)
  : Res (list A) :=
  match broadcast v (length idx) with
  | None => Raise ValueError
  | Some vs =>
      match mapM (norm_index (length a)) idx with
      | None => Raise IndexError
      | Some js => Ok (foldl store a (zip js vs))
      end
  end.

End Np.

(** ** Feature encoder *)

(** One record of [epoch_<i>.json]. *)
Record Example : Type := {
  ex_tokens : list string;
  ex_segment_ids : list Z;
  ex_is_random_next : bool;
  ex_masked_lm_positions : list Z;
  ex_masked_lm_labels : list string
}.

Record InputFeatures : Type := {
  input_ids : list Z;
  input_mask : list bool;
  segment_ids : list bool;
  lm_label_ids : list Z;
  is_next : bool
}.

(** The injected vocabulary mapping. *)
Record Tokenizer : Type := { vocab : string -> Z }.

Definition convert_tokens_to_ids (tokenizer : Tokenizer) (toks : list string)
  : list Z :=
  vocab tokenizer <$> toks.

(** Lines 73-76: keep the head when the token list is too long. *)
Definition truncate_tokens (tokens : list string) (max_seq_length : nat)
  : list string :=
  if decide (max_seq_length < length tokens)%nat
  then take max_seq_length tokens
  else tokens.

(** Lines 78-80: on a length mismatch the segment ids become all zero. *)
Definition recover_segment_ids (tokens : list string) (segment_ids : list Z)
  : list Z :=
  if decide (length tokens ≠ length segment_ids)
  then replicate (length tokens) 0
  else segment_ids.

(** numpy cast of an integer to [bool]. *)
Definition as_bool (z : Z) : bool := negb (z =? 0).

Definition convert_example_to_features
    (example : Example) (tokenizer : Tokenizer) (max_seq_length : nat)
  : Res InputFeatures :=
  let tokens := ex_tokens example in
  let segment_ids := ex_segment_ids example in
  let is_random_next := ex_is_random_next example in
  let masked_lm_positions := ex_masked_lm_positions example in
  let masked_lm_labels := ex_masked_lm_labels example in
  let tokens := truncate_tokens tokens max_seq_length in
  let segment_ids := recover_segment_ids tokens segment_ids in
  if negb (bool_decide (length tokens = length segment_ids)
           && bool_decide (length segment_ids <= max_seq_length)%nat)
  then Raise AssertionError
  else
    let input_ids := convert_tokens_to_ids tokenizer tokens in
    let masked_label_ids := convert_tokens_to_ids tokenizer masked_lm_labels in
    let* input_array :=
      Np.set_prefix (Np.zeros max_seq_length) (length input_ids) input_ids in
    let mask_array :=
      Np.fill_prefix (Np.zeros_bool max_seq_length) (length input_ids) true in
    let* segment_array :=
      Np.set_prefix (Np.zeros_bool max_seq_length) (length segment_ids)
                    (as_bool <$> segment_ids) in
    let* lm_label_array :=
      Np.set_at (Np.full max_seq_length (-1)) masked_lm_positions
                masked_label_ids in
    Ok {| input_ids := input_array;
          input_mask := mask_array;
          segment_ids := segment_array;
          lm_label_ids := lm_label_array;
          is_next := is_random_next |}.

(** ** Corpus shards and the epoch dataset *)

(** [epoch_<i>.json] and [epoch_<i>_metrics.json] of the corpus directory. *)
Inductive File : Type :=
  | EpochData (i : Z)
  | EpochMetrics (i : Z).

Record Metrics : Type := {
  num_training_examples : nat;
  max_seq_len : nat
}.

Record Corpus : Type := {
  is_file : File -> bool;
  read_metrics : Z -> Metrics;
  read_examples : Z -> list Example
}.

Definition shard_present (c : Corpus) (i : Z) : bool :=
  is_file c (EpochData i) && is_file c (EpochMetrics i).

(** Lines 206-223 of [main]: the [for ... else] loop that counts the shards.
    [todo] is the rest of [range(int(num_train_epochs))]; the result is
    [(num_data_epochs, samples_per_epoch)].  The flag [num_train_epochs] is
    a float in the program; it is modelled by its integral part, which is
    all that the loop bounds use, and for an epoch index below that
    integral part [epoch % num_train_epochs] is the epoch index itself
    whether or not a fractional part is present. *)
Fixpoint scan_shards (c : Corpus) (num_train_epochs : nat) (todo : list Z)
    (samples_per_epoch : list nat) : Res (Z * list nat) :=
  match todo with
  | [] => Ok (Z.of_nat num_train_epochs, samples_per_epoch)
  | i :: todo' =>
      if shard_present c i
      then scan_shards c num_train_epochs todo'
             (samples_per_epoch ++ [num_training_examples (read_metrics c i)])
      else if i =? 0 then Raise SystemExit
      else Ok (i, samples_per_epoch)
  end.

Definition count_data_epochs (c : Corpus) (num_train_epochs : nat)
  : Res (Z * list nat) :=
  scan_shards c num_train_epochs (range num_train_epochs) [].

(** Line 116: the shard that backs a logical epoch. *)
Definition data_epoch_of (epoch num_data_epochs : Z) : Res Z :=
  if num_data_epochs =? 0 then Raise ZeroDivisionError
  else Ok (epoch mod num_data_epochs).

Record PregeneratedDataset : Type := {
  ds_epoch : Z;
  data_epoch : Z;
  num_samples : nat;
  seq_len : nat;
  ds_rows : list InputFeatures
}.

Definition empty_row (seq_len : nat) : InputFeatures :=
  {| input_ids := Np.zeros seq_len;
     input_mask := Np.zeros_bool seq_len;
     segment_ids := Np.zeros_bool seq_len;
     lm_label_ids := Np.full seq_len (-1);
     is_next := false |}.

(** Lines 153-162: encode line [i] and store it in row [i]. *)
Definition load_line (tokenizer : Tokenizer) (num_samples seq_len : nat)
    (rows : list InputFeatures) (ie : Z * Example) : Res (list InputFeatures) :=
  let* features := convert_example_to_features ie.2 tokenizer seq_len in
  if Z.of_nat num_samples <=? ie.1 then Raise IndexError
  else Ok (<[Z.to_nat ie.1 := features]> rows).

(** [PregeneratedDataset.__init__] (both storage strategies hold the same
    values, so one list of rows models them). *)
Definition PregeneratedDataset_init (c : Corpus) (epoch : Z)
    (tokenizer : Tokenizer) (num_data_epochs : Z) : Res PregeneratedDataset :=
  let* data_epoch := data_epoch_of epoch num_data_epochs in
  if negb (is_file c (EpochData data_epoch)
           && is_file c (EpochMetrics data_epoch))
  then Raise AssertionError
  else
    let metrics := read_metrics c data_epoch in
    let num_samples := num_training_examples metrics in
    let seq_len := max_seq_len metrics in
    let* rows :=
      for_each (load_line tokenizer num_samples seq_len)
               (enumerate (read_examples c data_epoch))
               (replicate num_samples (empty_row seq_len)) in
    Ok {| ds_epoch := epoch;
          data_epoch := data_epoch;
          num_samples := num_samples;
          seq_len := seq_len;
          ds_rows := rows |}.

(** ** Distillation loss *)

(** A tensor, flattened to the list of its entries. *)
Abbreviation Tensor := (list Q) (only parsing).

(** Lines 380-383: [torch.where(att <= -1e2, zeros_like(att), att)]. *)
Definition zero_sentinel (x : Q) : Q :=
  if Qle_bool x (-100 # 1) then 0%Q else x.

Definition where_sentinel (att : Tensor) : Tensor := zero_sentinel <$> att.

Definition sq_err (a b : Q) : Q := ((a - b) * (a - b))%Q.

Definition Qsum (l : list Q) : Q := foldr Qplus 0%Q l.

(** [MSELoss()]: the mean of the squared entry-wise differences. *)
Definition loss_mse (input target : Tensor) : Res Q :=
  if decide (length input = length target)
  then Ok (Qsum (zip_with sq_err input target)
           / inject_Z (Z.of_nat (length input)))%Q
  else Raise RuntimeError.

(** What the two forward passes return on a batch (lines 365-368). *)
Record Activations : Type := {
  student_atts : list Tensor;
  student_reps : list Tensor;
  teacher_reps : list Tensor;
  teacher_atts : list Tensor
}.

(** Lines 373-374. *)
Definition layers_per_block (teacher_layer_num student_layer_num : Z) : Res Z :=
  if student_layer_num =? 0 then Raise ZeroDivisionError
  else if negb (teacher_layer_num mod student_layer_num =? 0)
  then Raise AssertionError
  else Ok (teacher_layer_num / student_layer_num).

(** Lines 376-377: the last layer of each teacher block. *)
Definition new_teacher_atts {A : Type} (teacher_atts : list A)
    (layers_per_block : Z) (student_layer_num : nat) : Res (list A) :=
  comprehension
    (fun i => py_get teacher_atts (i * layers_per_block + layers_per_block - 1))
    (range student_layer_num).

(** Line 389: the first layer of each teacher block. *)
Definition new_teacher_reps {A : Type} (teacher_reps : list A)
    (layers_per_block : Z) (student_layer_num : nat) : Res (list A) :=
  comprehension
    (fun i => py_get teacher_reps (i * layers_per_block))
    (range (student_layer_num + 1)).

(** Lines 380-384 for one pair of attention tensors. *)
Definition att_pair_loss (pair : Tensor * Tensor) : Res Q :=
  let student_att := where_sentinel pair.1 in
  let teacher_att := where_sentinel pair.2 in
  loss_mse student_att teacher_att.

(** Line 393 for one pair of representation tensors. *)
Definition rep_pair_loss (pair : Tensor * Tensor) : Res Q :=
  loss_mse pair.1 pair.2.

Definition add_loss (f : Tensor * Tensor -> Res Q) (acc : Q)
    (pair : Tensor * Tensor) : Res Q :=
  let* l := f pair in Ok (acc + l)%Q.

(** Lines 370-394: [(att_loss, rep_loss)] of one batch. *)
Definition distill_losses (act : Activations) : Res (Q * Q) :=
  let teacher_layer_num := length (teacher_atts act) in
  let student_layer_num := length (student_atts act) in
  let* lpb := layers_per_block (Z.of_nat teacher_layer_num)
                               (Z.of_nat student_layer_num) in
  let* nta := new_teacher_atts (teacher_atts act) lpb student_layer_num in
  let* att_loss :=
    for_each (add_loss att_pair_loss) (zip (student_atts act) nta) 0%Q in
  let* ntr := new_teacher_reps (teacher_reps act) lpb student_layer_num in
  let* rep_loss :=
    for_each (add_loss rep_pair_loss) (zip (student_reps act) ntr) 0%Q in
  Ok (att_loss, rep_loss).

(** ** Training loop *)

(** The command-line flags that the loop reads. *)
Record Args : Type := {
  num_train_epochs : nat;
  train_batch_size : Z;
  gradient_accumulation_steps : Z;
  eval_step : Z;
  attn_scale : Q;
  rep_scale : Q
}.

(** One batch of the data loader: its first dimension and the activations
    that the forward passes return on it. *)
Record Batch : Type := {
  batch_size : Z;
  activations : Activations
}.

(** The scalar fields of [resume_checkpoint.pt]; the three state dicts are
    opaque to the loop and are not modelled. *)
Record Snapshot : Type := {
  snap_ep_step : Z;
  snap_epoch : Z;
  snap_global_step : Z
}.

(** The record built at lines 459-463. *)
Record EvalResult : Type := {
  res_global_step : Z;
  res_loss : Q;
  res_att_loss : Q;
  res_rep_loss : Q
}.

Inductive LogDir : Type := ModelDir | CheckpointDir.

(** Side effects of the loop, in program order. *)
Inductive Event : Type :=
  | EvForward (epoch step : Z)
  | EvBackward (epoch step : Z) (loss : Q)
  | EvOptimizerStep
  | EvZeroGrad
  | EvSaveStepModel (global_step : Z)
  | EvSaveCheckpoint (snapshot : Snapshot)
  | EvTrackerLog (result : EvalResult)
  | EvAppendLog (dir : LogDir) (logging_file : Z * Z) (result : EvalResult)
  | EvTrackerSave
  | EvSaveEpochModel (global_step : Z)
  | EvSaveFinalModel.

Record TrainState : Type := {
  global_step : Z;
  tr_loss : Q;
  tr_att_loss : Q;
  tr_rep_loss : Q;
  nb_tr_examples : Z;
  nb_tr_steps : Z;
  resume_checkpoint : option Snapshot;
  trace : list Event
}.

(** What the process finds around it: its rank, the corpus, the tokenizer,
    the batches that the data loader yields for an epoch, and the
    checkpoint file, if any. *)
Record Env : Type := {
  local_rank : Z;
  corpus : Corpus;
  tokenizer_of : Tokenizer;
  dataloader : PregeneratedDataset -> Z -> list Batch;
  snapshot_file : option Snapshot
}.

(** Loop constants fixed before the first epoch. *)
Record Run : Type := {
  run_args : Args;
  run_rank : Z;
  per_gpu_batch_size : Z;
  ep_step : Z;
  logging_file : Z * Z
}.

Definition emit (e : Event) (st : TrainState) : TrainState :=
  {| global_step := global_step st;
     tr_loss := tr_loss st;
     tr_att_loss := tr_att_loss st;
     tr_rep_loss := tr_rep_loss st;
     nb_tr_examples := nb_tr_examples st;
     nb_tr_steps := nb_tr_steps st;
     resume_checkpoint := resume_checkpoint st;
     trace := trace st ++ [e] |}.

(** Lines 345-349: the running sums restart with every epoch. *)
Definition reset_running (st : TrainState) : TrainState :=
  {| global_step := global_step st;
     tr_loss := 0;
     tr_att_loss := 0;
     tr_rep_loss := 0;
     nb_tr_examples := 0;
     nb_tr_steps := 0;
     resume_checkpoint := resume_checkpoint st;
     trace := trace st |}.

(** Lines 410-415. *)
Definition accumulate (att_loss rep_loss loss : Q) (size : Z) (st : TrainState)
  : TrainState :=
  {| global_step := global_step st;
     tr_loss := (tr_loss st + loss)%Q;
     tr_att_loss := (tr_att_loss st + att_loss)%Q;
     tr_rep_loss := (tr_rep_loss st + rep_loss)%Q;
     nb_tr_examples := nb_tr_examples st + size;
     nb_tr_steps := nb_tr_steps st + 1;
     resume_checkpoint := resume_checkpoint st;
     trace := trace st |}.

(** Lines 425-427. *)
Definition optimizer_update (st : TrainState) : TrainState :=
  let st := emit EvOptimizerStep st in
  let st := emit EvZeroGrad st in
  {| global_step := global_step st + 1;
     tr_loss := tr_loss st;
     tr_att_loss := tr_att_loss st;
     tr_rep_loss := tr_rep_loss st;
     nb_tr_examples := nb_tr_examples st;
     nb_tr_steps := nb_tr_steps st;
     resume_checkpoint := resume_checkpoint st;
     trace := trace st |}.

(** Lines 435-455: the step export and the resumable checkpoint. *)
Definition save_snapshot (epoch step : Z) (st : TrainState) : TrainState :=
  let snapshot := {| snap_ep_step := step;
                     snap_epoch := epoch;
                     snap_global_step := global_step st |} in
  let st := emit (EvSaveStepModel (global_step st)) st in
  let st := emit (EvSaveCheckpoint snapshot) st in
  {| global_step := global_step st;
     tr_loss := tr_loss st;
     tr_att_loss := tr_att_loss st;
     tr_rep_loss := tr_rep_loss st;
     nb_tr_examples := nb_tr_examples st;
     nb_tr_steps := nb_tr_steps st;
     resume_checkpoint := Some snapshot;
     trace := trace st |}.

(** Lines 459-481: one record to the tracker and to the two text logs. *)
Definition log_eval (r : Run) (result : EvalResult) (st : TrainState)
  : TrainState :=
  let st := emit (EvTrackerLog result) st in
  let st := emit (EvAppendLog ModelDir (logging_file r) result) st in
  let st := emit (EvAppendLog CheckpointDir (logging_file r) result) st in
  emit EvTrackerSave st.

(** Lines 396-401. *)
Definition scaled_loss (a : Args) (att_loss rep_loss : Q) : Q :=
  let loss := (attn_scale a * att_loss + rep_scale a * rep_loss)%Q in
  if 1 <? gradient_accumulation_steps a
  then (loss / inject_Z (gradient_accumulation_steps a))%Q
  else loss.

(** Lines 418-420. *)
Definition running_mean (a : Args) (total : Q) (st : TrainState) : Q :=
  (total * inject_Z (gradient_accumulation_steps a)
   / inject_Z (nb_tr_steps st))%Q.

(** Lines 431-481: what rank 0 does after a processed batch. *)
Definition master_step (r : Run) (epoch step : Z)
    (mean_loss mean_att_loss mean_rep_loss : Q) (st : TrainState)
  : Res TrainState :=
  let st := if step mod 10 =? 0 then save_snapshot epoch step st else st in
  if eval_step (run_args r) =? 0 then Raise ZeroDivisionError
  else if (global_step st + 1) mod eval_step (run_args r) =? 0
  then Ok (log_eval r {| res_global_step := global_step st;
                         res_loss := mean_loss;
                         res_att_loss := mean_att_loss;
                         res_rep_loss := mean_rep_loss |} st)
  else Ok st.

(** [loss.item()] at lines 410-411.  A loss starts as the Python float
    [0.] and becomes a tensor with the first pair that is added to it; a
    float has no [item].  [new_teacher_atts] and [new_teacher_reps] have
    [student_layer_num] and [student_layer_num + 1] entries, so the loop
    over [zip(student, teacher)] has no pair exactly when the list of the
    student, [student], is empty. *)
Definition item {A : Type} (student : list A) (loss : Q) : Res Q :=
  match student with
  | [] => Raise AttributeError
  | _ :: _ => Ok loss
  end.

(** Lines 351-481: the body of the batch loop for [(step, batch)]. *)
Definition train_batch (r : Run) (epoch : Z) (st : TrainState)
    (sb : Z * Batch) : Res TrainState :=
  let step := sb.1 in
  let batch := sb.2 in
  let a := run_args r in
  if step <? ep_step r then Ok st
  else if negb (batch_size batch =? per_gpu_batch_size r) then Ok st
  else
    let st := emit (EvForward epoch step) st in
    let* losses := distill_losses (activations batch) in
    let att_loss := losses.1 in
    let rep_loss := losses.2 in
    let loss := scaled_loss a att_loss rep_loss in
    let st := emit (EvBackward epoch step loss) st in
    let* att_item := item (student_atts (activations batch)) att_loss in
    let* rep_item := item (student_reps (activations batch)) rep_loss in
    let st := accumulate att_item rep_item loss (batch_size batch) st in
    let mean_loss := running_mean a (tr_loss st) st in
    let mean_att_loss := running_mean a (tr_att_loss st) st in
    let mean_rep_loss := running_mean a (tr_rep_loss st) st in
    if gradient_accumulation_steps a =? 0 then Raise ZeroDivisionError
    else
      let st :=
        if (step + 1) mod gradient_accumulation_steps a =? 0
        then optimizer_update st else st in
      if run_rank r =? 0
      then master_step r epoch step mean_loss mean_att_loss mean_rep_loss st
      else Ok st.

(** Lines 350-481: the batch loop of one epoch. *)
Definition train_batches (r : Run) (epoch : Z) (batches : list Batch)
    (st : TrainState) : Res TrainState :=
  for_each (train_batch r epoch) (enumerate batches) st.

(** Lines 333-494: one iteration of the epoch loop. *)
Definition train_epoch (env : Env) (r : Run) (num_data_epochs : Z)
    (st : TrainState) (epoch : Z) : Res TrainState :=
  let* epoch_dataset :=
    PregeneratedDataset_init (corpus env) epoch (tokenizer_of env)
                             num_data_epochs in
  let train_dataloader := dataloader env epoch_dataset epoch in
  let st := reset_running st in
  let* st := train_batches r epoch train_dataloader st in
  Ok (if run_rank r =? 0 then emit (EvSaveEpochModel (global_step st)) st
      else st).

(** [range(lo, hi)]. *)
Definition range_from (lo hi : Z) : list Z :=
  (fun k => lo + Z.of_nat k) <$> seq 0 (Z.to_nat (hi - lo)).

(** The state with which the checkpoint, if there is one, starts the run
    (lines 304-317). *)
Definition restore (snapshot_file : option Snapshot) : Z * Z * Z :=
  match snapshot_file with
  | Some snapshot =>
      (snap_epoch snapshot, snap_global_step snapshot, snap_ep_step snapshot)
  | None => (0, 0, 0)
  end.

Definition main (env : Env) (args : Args) : Res TrainState :=
  let* shards := count_data_epochs (corpus env) (num_train_epochs args) in
  let num_data_epochs := shards.1 in
  if gradient_accumulation_steps args <? 1 then Raise ValueError
  else
    let train_batch_size :=
      train_batch_size args / gradient_accumulation_steps args in
    (* line 259: a float division by [train_batch_size] *)
    if train_batch_size =? 0 then Raise ZeroDivisionError
    else
      let '(epochs_run, global_step, ep_step) := restore (snapshot_file env) in
      let r := {| run_args := args;
                  run_rank := local_rank env;
                  per_gpu_batch_size := train_batch_size;
                  ep_step := ep_step;
                  logging_file := (epochs_run, ep_step) |} in
      let st := {| global_step := global_step;
                   tr_loss := 0;
                   tr_att_loss := 0;
                   tr_rep_loss := 0;
                   nb_tr_examples := 0;
                   nb_tr_steps := 0;
                   resume_checkpoint := snapshot_file env;
                   trace := [] |} in
      let* st :=
        for_each (train_epoch env r num_data_epochs)
                 (range_from epochs_run (Z.of_nat (num_train_epochs args))) st in
      Ok (if local_rank env =? 0 then emit EvSaveFinalModel st else st).

(** ** Observations on traces and batches *)

Fixpoint count_ev (p : Event -> bool) (tr : list Event) : Z :=
  match tr with
  | [] => 0
  | e :: tr' => (if p e then 1 else 0) + count_ev p tr'
  end.

Definition is_update_event (e : Event) : bool :=
  match e with EvOptimizerStep | EvZeroGrad => true | _ => false end.

(** The optimizer steps and gradient clearings of a trace, in order. *)
Fixpoint update_events (tr : list Event) : list Event :=
  match tr with
  | [] => []
  | e :: tr' =>
      if is_update_event e then e :: update_events tr' else update_events tr'
  end.

(** Lines 425-426, as they appear in a trace. *)
Definition update_block : list Event := [EvOptimizerStep; EvZeroGrad].

Definition is_tracker_log (e : Event) : bool :=
  match e with EvTrackerLog _ => true | _ => false end.

(** The [(epoch, step)] pairs on which the forward passes ran. *)
Fixpoint forward_steps (tr : list Event) : list (Z * Z) :=
  match tr with
  | [] => []
  | EvForward epoch step :: tr' => (epoch, step) :: forward_steps tr'
  | _ :: tr' => forward_steps tr'
  end.

(** The global steps of the records sent to the experiment tracker. *)
Fixpoint logged_steps (tr : list Event) : list Z :=
  match tr with
  | [] => []
  | EvTrackerLog result :: tr' => res_global_step result :: logged_steps tr'
  | _ :: tr' => logged_steps tr'
  end.

(** A batch that passes both guards at the head of the loop body. *)
Definition processed (r : Run) (step : Z) (batch : Batch) : bool :=
  negb (step <? ep_step r) && (batch_size batch =? per_gpu_batch_size r).

(** The number of processed batches that close an accumulation group,
    the first batch having raw index [start]. *)
Fixpoint updates (r : Run) (start : Z) (batches : list Batch) : nat :=
  match batches with
  | [] => 0%nat
  | b :: bs =>
      let closes_group :=
        (start + 1) mod gradient_accumulation_steps (run_args r) =? 0 in
      ((if processed r start b && closes_group then 1 else 0)
       + updates r (start + 1) bs)%nat
  end.

(** A batch on which lines 362-415 raise nothing: the losses are computed
    and the student returns at least one representation. *)
Definition batch_ok (b : Batch) : Prop :=
  is_ok (distill_losses (activations b))
  /\ student_reps (activations b) ≠ [].

(** From [st] to [st'] the global step has moved by [k] and the trace has
    gained [k] times the pair of an optimizer step and a gradient clearing,
    and no other optimizer step or gradient clearing. *)
Definition advanced (k : nat) (st st' : TrainState) : Prop :=
  global_step st' = global_step st + Z.of_nat k
  /\ update_events (trace st')
     = update_events (trace st) ++ concat (replicate k update_block).

(** ** Concrete inputs used by the examples below *)

Module Sample.

Definition tok : Tokenizer :=
  {| vocab := fun s => Z.of_nat (String.length s) |}.

(** One token, one masked position beyond a window of two. *)
Definition ex_out_of_range : Example :=
  {| ex_tokens := ["a"%string];
     ex_segment_ids := [0];
     ex_is_random_next := false;
     ex_masked_lm_positions := [5];
     ex_masked_lm_labels := ["b"%string] |}.

(** Three tokens with one masked position. *)
Definition ex_short : Example :=
  {| ex_tokens := ["a"; "bb"; "ccc"]%string;
     ex_segment_ids := [0; 1; 1];
     ex_is_random_next := true;
     ex_masked_lm_positions := [1];
     ex_masked_lm_labels := ["dddd"%string] |}.

Definition act : Activations :=
  {| student_atts := [[0%Q]];
     student_reps := [[0%Q]; [0%Q]];
     teacher_reps := [[0%Q]; [0%Q]];
     teacher_atts := [[0%Q]] |}.

Definition full_batch : Batch := {| batch_size := 8; activations := act |}.
Definition short_batch : Batch := {| batch_size := 3; activations := act |}.

(** A corpus directory that holds the shards of epochs 0 and 1 only. *)
Definition two_shards : Corpus :=
  {| is_file := fun f =>
       match f with
       | EpochData i | EpochMetrics i => (0 <=? i) && (i <? 2)
       end;
     read_metrics := fun _ => {| num_training_examples := 0; max_seq_len := 4 |};
     read_examples := fun _ => [] |}.

Definition env (rank : Z) (batches : list Batch) (saved : option Snapshot)
  : Env :=
  {| local_rank := rank;
     corpus := two_shards;
     tokenizer_of := tok;
     dataloader := fun _ _ => batches;
     snapshot_file := saved |}.

Definition args (epochs : nat) (accumulation eval : Z) : Args :=
  {| num_train_epochs := epochs;
     train_batch_size := 8 * accumulation;
     gradient_accumulation_steps := accumulation;
     eval_step := eval;
     attn_scale := 1;
     rep_scale := 1 |}.

Definition run (rank accumulation eval resume_step : Z) : Run :=
  {| run_args := args 1 accumulation eval;
     run_rank := rank;
     per_gpu_batch_size := 8;
     ep_step := resume_step;
     logging_file := (0, resume_step) |}.

Definition fresh : TrainState :=
  {| global_step := 0;
     tr_loss := 0;
     tr_att_loss := 0;
     tr_rep_loss := 0;
     nb_tr_examples := 0;
     nb_tr_steps := 0;
     resume_checkpoint := None;
     trace := [] |}.

(** Five tokens and five segment ids, for a window of three. *)
Definition ex_long : Example :=
  {| ex_tokens := ["a"; "bb"; "ccc"; "dddd"; "eeeee"]%string;
     ex_segment_ids := [0; 0; 1; 1; 1];
     ex_is_random_next := false;
     ex_masked_lm_positions := [2];
     ex_masked_lm_labels := ["ffffff"%string] |}.

(** A checkpoint written in epoch 0 at step 2 with 7 optimizer steps. *)
Definition saved : Snapshot :=
  {| snap_ep_step := 2; snap_epoch := 0; snap_global_step := 7 |}.

End Sample.

(** ** The rest of the dataset, of [main] and of the loop *)

(** [PregeneratedDataset.__len__]. *)
Definition dataset_len (ds : PregeneratedDataset) : nat := num_samples ds.

(** [PregeneratedDataset.__getitem__]: the five entries of row [item], the
    boolean arrays and the flag turned into integers. *)
Definition dataset_getitem (ds : PregeneratedDataset) (item : Z)
  : Res (list Z * list Z * list Z * list Z * Z) :=
  let* row := py_get (ds_rows ds) item in
  Ok (input_ids row,
      Z.b2z <$> input_mask row,
      Z.b2z <$> segment_ids row,
      lm_label_ids row,
      Z.b2z (is_next row)).

(** Lines 255-258 of [main]: one step of the sum over the training epochs,
    cycling over the shards that were found. *)
Definition add_epoch_samples (samples_per_epoch : list nat) (total : Z) (i : Z)
  : Res Z :=
  if Z.of_nat (length samples_per_epoch) =? 0 then Raise ZeroDivisionError
  else
    let* n := py_get samples_per_epoch
                     (i mod Z.of_nat (length samples_per_epoch)) in
    Ok (total + Z.of_nat n).

Definition total_train_examples (samples_per_epoch : list nat)
    (num_train_epochs : nat) : Res Z :=
  for_each (add_epoch_samples samples_per_epoch) (range num_train_epochs) 0.

(** The loop constants of a run that starts from [snapshot] (lines 314-316
    and 329). *)
Definition resumed_from (snapshot : Snapshot) (r : Run) : Run :=
  {| run_args := run_args r;
     run_rank := run_rank r;
     per_gpu_batch_size := per_gpu_batch_size r;
     ep_step := snap_ep_step snapshot;
     logging_file := (snap_epoch snapshot, snap_ep_step snapshot) |}.

(** Events that write a file or talk to the experiment tracker. *)
Definition is_io_event (e : Event) : bool :=
  match e with
  | EvForward _ _ | EvBackward _ _ _ | EvOptimizerStep | EvZeroGrad => false
  | _ => true
  end.

Fixpoint io_events (tr : list Event) : list Event :=
  match tr with
  | [] => []
  | e :: tr' => if is_io_event e then e :: io_events tr' else io_events tr'
  end.

(** The snapshots written to the resumable checkpoint, in order. *)
Fixpoint saved_snapshots (tr : list Event) : list Snapshot :=
  match tr with
  | [] => []
  | EvSaveCheckpoint snapshot :: tr' => snapshot :: saved_snapshots tr'
  | _ :: tr' => saved_snapshots tr'
  end.

(** The content of a file after the writes [written], in order. *)
Definition after_writes {A : Type} (before : option A) (written : list A)
  : option A :=
  match last written with
  | Some a => Some a
  | None => before
  end.

(** The raw indices of the batches that pass both guards, the first batch
    having raw index [start]. *)
Fixpoint processed_steps (r : Run) (start : Z) (batches : list Batch)
  : list Z :=
  match batches with
  | [] => []
  | b :: bs =>
      if processed r start b
      then start :: processed_steps r (start + 1) bs
      else processed_steps r (start + 1) bs
  end.

(** Two attention entries that are equal or both at or below the
    sentinel threshold. *)
Definition same_or_masked (x x' : Q) : Prop :=
  x = x' \/ ((x <= -100 # 1)%Q /\ (x' <= -100 # 1)%Q).

(** All tensors of a list have [n] entries. *)
Definition all_of_size (n : nat) (tensors : list (list Q)) : Prop :=
  Forall (fun t => length t = n) tensors.

Module Fixture.

(** A masked position without its label. *)
Definition ex_unlabelled : Example :=
  {| ex_tokens := ["a"; "bb"]%string;
     ex_segment_ids := [0; 0];
     ex_is_random_next := false;
     ex_masked_lm_positions := [0];
     ex_masked_lm_labels := [] |}.

(** The same position masked twice, then the last position counted from
    the end. *)
Definition ex_rewritten : Example :=
  {| ex_tokens := ["a"; "bb"; "ccc"]%string;
     ex_segment_ids := [0; 0; 0];
     ex_is_random_next := false;
     ex_masked_lm_positions := [1; 1; -1];
     ex_masked_lm_labels := ["x"; "yy"; "zzz"]%string |}.

(** A vocabulary of 30000 ids. *)
Definition tok : Tokenizer :=
  {| vocab := fun s => Z.of_nat (String.length s) mod 30000 |}.

(** A corpus directory without any shard. *)
Definition no_shards : Corpus :=
  {| is_file := fun _ => false;
     read_metrics := fun _ => {| num_training_examples := 0; max_seq_len := 4 |};
     read_examples := fun _ => [] |}.

(** Shards 0 and 1 with three and two declared examples; shard 0 holds two
    lines, shard 1 holds three. *)
Definition uneven : Corpus :=
  {| is_file := fun f =>
       match f with
       | EpochData i | EpochMetrics i => (0 <=? i) && (i <? 2)
       end;
     read_metrics := fun i =>
       {| num_training_examples := if i =? 0 then 3 else 2; max_seq_len := 5 |};
     read_examples := fun i =>
       if i =? 0 then [Sample.ex_short; Sample.ex_long]
       else [Sample.ex_short; Sample.ex_short; Sample.ex_short] |}.

(** Shards 0 and 1 that differ in everything: two lines in a window of
    five, and one line in a window of three. *)
Definition two_different : Corpus :=
  {| is_file := fun f =>
       match f with
       | EpochData i | EpochMetrics i => (0 <=? i) && (i <? 2)
       end;
     read_metrics := fun i =>
       if i =? 0 then {| num_training_examples := 2; max_seq_len := 5 |}
       else {| num_training_examples := 1; max_seq_len := 3 |};
     read_examples := fun i =>
       if i =? 0 then [Sample.ex_short; Sample.ex_long]
       else [Sample.ex_long] |}.

(** Two student layers against four teacher layers, one entry each. *)
Definition act_2_4 : Activations :=
  {| student_atts := [[1 # 2]; [-100 # 1]]%Q;
     student_reps := [[0]; [1]; [2 # 1]]%Q;
     teacher_reps := [[0]; [1]; [1]; [1]; [1]]%Q;
     teacher_atts := [[0]; [1]; [0]; [-200 # 1]]%Q |}.

(** Four student layers against twelve teacher layers; every tensor has
    one entry, the index of its layer. *)
Definition act_4_12 : Activations :=
  {| student_atts := (fun i => [inject_Z i]) <$> range 4;
     student_reps := (fun i => [inject_Z i]) <$> range 5;
     teacher_reps := (fun i => [inject_Z i]) <$> range 13;
     teacher_atts := (fun i => [inject_Z i]) <$> range 12 |}.

(** A full batch on which the student returns no representation. *)
Definition headless_batch : Batch :=
  {| batch_size := 8;
     activations :=
       {| student_atts := [[0%Q]];
          student_reps := [];
          teacher_reps := [[0%Q]; [0%Q]];
          teacher_atts := [[0%Q]] |} |}.

(** A process that finds no shard in its corpus directory. *)
Definition env_without_data : Env :=
  {| local_rank := 0;
     corpus := no_shards;
     tokenizer_of := tok;
     dataloader := fun _ _ => [];
     snapshot_file := None |}.

(** A total batch size of 1 spread over 2 accumulation steps. *)
Definition small_batch_args : Args :=
  {| num_train_epochs := 1;
     train_batch_size := 1;
     gradient_accumulation_steps := 2;
     eval_step := 1000;
     attn_scale := 1;
     rep_scale := 1 |}.

(** A checkpoint taken in epoch 5. *)
Definition late : Snapshot :=
  {| snap_ep_step := 30; snap_epoch := 5; snap_global_step := 400 |}.


(** A masked position beyond a window of two, without its label. *)
Definition ex_beyond_unlabelled : Example :=
  {| ex_tokens := ["a"%string];
     ex_segment_ids := [0];
     ex_is_random_next := false;
     ex_masked_lm_positions := [5];
     ex_masked_lm_labels := [] |}.

(** Twelve batches, the last of them short. *)
Definition twelve : list Batch :=
  replicate 11 Sample.full_batch ++ [Sample.short_batch].

End Fixture.

(** Proves a [Forall] over a list given by its entries. *)
Ltac each_entry tac :=
  repeat first [ apply List.Forall_nil | apply List.Forall_cons; [tac|] ].

(** * Properties *)

(** ** Results *)

Lemma bind_ok {A B : Type} (c : Res A) (k : A -> Res B) (b : B) :
  bind c k = Ok b -> exists a, c = Ok a /\ k a = Ok b.
Proof. destruct c as [a|e]; simpl; [eauto | discriminate]. Qed.

Lemma is_ok_ex {A : Type} (c : Res A) : is_ok c -> exists a, c = Ok a.
Proof. destruct c as [a|e]; simpl; [eauto | tauto]. Qed.

(** ** numpy helpers *)

Lemma norm_index_some n j k :
  norm_index n j = Some k ->
  (k < n)%nat /\ (j = Z.of_nat k \/ j = Z.of_nat k - Z.of_nat n).
Proof.
  unfold norm_index.
  destruct ((0 <=? j) && (j <? Z.of_nat n)) eqn:E1.
  - apply andb_true_iff in E1 as [H1 H2].
    intros [= <-]. split; lia.
  - destruct ((- Z.of_nat n <=? j) && (j <? 0)) eqn:E2; [|discriminate].
    apply andb_true_iff in E2 as [H1 H2].
    intros [= <-]. split; lia.
Qed.

Lemma norm_index_in_range n j :
  - Z.of_nat n <= j < Z.of_nat n -> is_Some (norm_index n j).
Proof.
  intros H. unfold norm_index.
  destruct ((0 <=? j) && (j <? Z.of_nat n)) eqn:E1; [eauto|].
  destruct ((- Z.of_nat n <=? j) && (j <? 0)) eqn:E2; [eauto|].
  apply andb_false_iff in E1, E2. exfalso.
  destruct E1 as [E1|E1], E2 as [E2|E2]; lia.
Qed.

Lemma norm_index_above n j : Z.of_nat n <= j -> norm_index n j = None.
Proof.
  intros H. unfold norm_index.
  destruct ((0 <=? j) && (j <? Z.of_nat n)) eqn:E1.
  { apply andb_true_iff in E1. lia. }
  destruct ((- Z.of_nat n <=? j) && (j <? 0)) eqn:E2; [|done].
  apply andb_true_iff in E2. lia.
Qed.

Lemma broadcast_same {A : Type} (v : list A) :
  Np.broadcast v (length v) = Some v.
Proof. unfold Np.broadcast. by rewrite decide_True. Qed.

Lemma set_prefix_exact {A : Type} (n : nat) (x : A) (v : list A) :
  (length v <= n)%nat ->
  Np.set_prefix (replicate n x) (length v) v
  = Ok (v ++ replicate (n - length v) x).
Proof.
  intros H. unfold Np.set_prefix.
  rewrite length_replicate, Nat.min_l by done.
  by rewrite broadcast_same, drop_replicate.
Qed.

Lemma fill_prefix_exact {A : Type} (n k : nat) (x y : A) :
  (k <= n)%nat ->
  Np.fill_prefix (replicate n x) k y = replicate k y ++ replicate (n - k) x.
Proof.
  intros H. unfold Np.fill_prefix.
  rewrite length_replicate, Nat.min_l by done.
  by rewrite drop_replicate.
Qed.

Lemma foldl_store_length {A : Type} (jxs : list (nat * A)) (a : list A) :
  length (foldl Np.store a jxs) = length a.
Proof.
  revert a. induction jxs as [|jx jxs IH]; intros a; simpl; [done|].
  rewrite IH. unfold Np.store. apply length_insert.
Qed.

Lemma foldl_store_untouched {A : Type} (jxs : list (nat * A)) (a : list A) i :
  i ∉ jxs.*1 -> foldl Np.store a jxs !! i = a !! i.
Proof.
  revert a. induction jxs as [|[j x] jxs IH]; intros a Hi; simpl; [done|].
  rewrite fmap_cons in Hi. apply not_elem_of_cons in Hi as [Hne Hi].
  rewrite IH by done. unfold Np.store. simpl in *.
  by apply list_lookup_insert_ne.
Qed.

Lemma set_at_ok {A : Type} (a : list A) (idx : list Z) (v : list A) :
  Forall (fun p => - Z.of_nat (length a) <= p < Z.of_nat (length a)) idx ->
  length v = length idx ->
  exists js,
    mapM (norm_index (length a)) idx = Some js
    /\ Np.set_at a idx v = Ok (foldl Np.store a (zip js v)).
Proof.
  intros Hidx Hlen.
  assert (is_Some (mapM (norm_index (length a)) idx)) as [js Hjs].
  { apply mapM_is_Some. eapply Forall_impl; [exact Hidx|].
    intros p Hp. by apply norm_index_in_range. }
  exists js. split; [done|].
  unfold Np.set_at. by rewrite <- Hlen, broadcast_same, Hjs.
Qed.

Lemma set_at_out_of_bounds {A : Type} (a : list A) (idx : list Z) (v : list A) p :
  p ∈ idx -> Z.of_nat (length a) <= p ->
  length v = length idx ->
  Np.set_at a idx v = Raise IndexError.
Proof.
  intros Hin Hp Hlen. unfold Np.set_at.
  rewrite <- Hlen, broadcast_same.
  assert (mapM (norm_index (length a)) idx = None) as ->; [|done].
  apply mapM_None. apply Exists_exists. exists p. split; [done|].
  by apply norm_index_above.
Qed.

Lemma set_at_fails {A : Type} (a : list A) (idx : list Z) (v : list A) p :
  p ∈ idx -> Z.of_nat (length a) <= p ->
  exists e, Np.set_at a idx v = Raise e.
Proof.
  intros Hin Hp. unfold Np.set_at.
  destruct (Np.broadcast v (length idx)) as [vs|]; [|eauto].
  assert (mapM (norm_index (length a)) idx = None) as ->; [|eauto].
  apply mapM_None. apply Exists_exists. exists p. split; [done|].
  by apply norm_index_above.
Qed.

(** ** Feature encoder *)

Section Encoder.

Variable tokenizer : Tokenizer.
Variable max_seq_length : nat.

Lemma truncate_tokens_length (tokens : list string) :
  (length (truncate_tokens tokens max_seq_length) <= max_seq_length)%nat.
Proof.
  unfold truncate_tokens. case_decide; [|lia].
  rewrite length_take. lia.
Qed.

Lemma truncate_tokens_short (tokens : list string) :
  (length tokens <= max_seq_length)%nat ->
  truncate_tokens tokens max_seq_length = tokens.
Proof. intros H. unfold truncate_tokens. case_decide; [lia|done]. Qed.

Lemma recover_segment_ids_length (tokens : list string) (segs : list Z) :
  length (recover_segment_ids tokens segs) = length tokens.
Proof.
  unfold recover_segment_ids. case_decide as H.
  - apply length_replicate.
  - destruct (decide (length tokens = length segs)); [done|contradiction].
Qed.

Lemma as_bool_zeros (n : nat) :
  as_bool <$> replicate n 0 = replicate n false.
Proof. by rewrite fmap_replicate. Qed.

(** The encoder is the label write on top of three padded arrays: the
    truncation, the segment recovery and the assertion cannot fail. *)
Lemma convert_example_to_features_eq (example : Example) :
  let tokens := truncate_tokens (ex_tokens example) max_seq_length in
  let segs := recover_segment_ids tokens (ex_segment_ids example) in
  let pad := (max_seq_length - length tokens)%nat in
  convert_example_to_features example tokenizer max_seq_length =
  let* lm_label_array :=
    Np.set_at (Np.full max_seq_length (-1))
              (ex_masked_lm_positions example)
              (convert_tokens_to_ids tokenizer (ex_masked_lm_labels example)) in
  Ok {| input_ids := convert_tokens_to_ids tokenizer tokens ++ replicate pad 0;
        input_mask := replicate (length tokens) true ++ replicate pad false;
        segment_ids := (as_bool <$> segs) ++ replicate pad false;
        lm_label_ids := lm_label_array;
        is_next := ex_is_random_next example |}.
Proof.
  intros tokens segs pad.
  pose proof (truncate_tokens_length (ex_tokens example)) as Hlen.
  pose proof (recover_segment_ids_length tokens (ex_segment_ids example)) as Hseg.
  fold tokens in Hlen. fold segs in Hseg.
  unfold convert_example_to_features. fold tokens. fold segs.
  rewrite !bool_decide_eq_true_2 by lia. simpl negb. cbv iota.
  assert (length (convert_tokens_to_ids tokenizer tokens) = length tokens)
    as Hids by apply length_fmap.
  unfold Np.zeros, Np.zeros_bool.
  rewrite set_prefix_exact by lia. simpl bind.
  rewrite fill_prefix_exact by lia.
  replace (length segs) with (length (as_bool <$> segs))
    by (rewrite length_fmap; done).
  rewrite set_prefix_exact by (rewrite length_fmap; lia). simpl bind.
  rewrite length_fmap, Hids, Hseg. done.
Qed.

(** C4, for masked positions inside the window: an example that fits the
    window, whose masked positions are valid numpy indices of the window
    and come with one label each, is encoded into four arrays of length
    [max_seq_length]; the mask is [true] exactly on the first [len(tokens)]
    positions; the label array holds -1 wherever no masked position, read
    as numpy reads it (a negative one counts from the end), refers to the
    entry. *)
Theorem encode_padded (example : Example) :
  (length (ex_tokens example) <= max_seq_length)%nat ->
  Forall (fun p => - Z.of_nat max_seq_length <= p < Z.of_nat max_seq_length)
         (ex_masked_lm_positions example) ->
  length (ex_masked_lm_labels example)
    = length (ex_masked_lm_positions example) ->
  exists f,
    convert_example_to_features example tokenizer max_seq_length = Ok f
    /\ length (input_ids f) = max_seq_length
    /\ length (input_mask f) = max_seq_length
    /\ length (segment_ids f) = max_seq_length
    /\ length (lm_label_ids f) = max_seq_length
    /\ (forall i : nat, (i < max_seq_length)%nat ->
          input_mask f !! i
          = Some (bool_decide (i < length (ex_tokens example))%nat))
    /\ (forall i : nat, (i < max_seq_length)%nat ->
          Z.of_nat i ∉ ex_masked_lm_positions example ->
          Z.of_nat i - Z.of_nat max_seq_length
            ∉ ex_masked_lm_positions example ->
          lm_label_ids f !! i = Some (-1)).
Proof.
  intros Hfit Hpos Hlab.
  rewrite convert_example_to_features_eq.
  rewrite (truncate_tokens_short _ Hfit).
  set (segs := recover_segment_ids _ _).
  pose proof (recover_segment_ids_length (ex_tokens example)
                (ex_segment_ids example)) as Hseg. fold segs in Hseg.
  destruct (set_at_ok (Np.full max_seq_length (-1))
              (ex_masked_lm_positions example)
              (convert_tokens_to_ids tokenizer (ex_masked_lm_labels example)))
    as (js & Hjs & ->).
  { unfold Np.full. by rewrite length_replicate. }
  { unfold convert_tokens_to_ids. by rewrite length_fmap. }
  simpl bind. eexists. split; [reflexivity|]. simpl.
  unfold Np.full in *. rewrite length_replicate in Hjs.
  repeat split.
  - rewrite length_app, length_replicate.
    unfold convert_tokens_to_ids. rewrite length_fmap. lia.
  - rewrite length_app, !length_replicate. lia.
  - rewrite length_app, length_replicate, length_fmap. lia.
  - by rewrite foldl_store_length, length_replicate.
  - intros i Hi. case_bool_decide as Hlt.
    + rewrite lookup_app_l by (rewrite length_replicate; lia).
      by apply lookup_replicate_2.
    + rewrite lookup_app_r by (rewrite length_replicate; lia).
      apply lookup_replicate_2. rewrite length_replicate. lia.
  - intros i Hi Hno1 Hno2.
    rewrite foldl_store_untouched.
    + by apply lookup_replicate_2.
    + intros Hin. apply list_elem_of_fmap in Hin as ([j x] & -> & Hin).
      simpl in *. apply elem_of_zip_l in Hin.
      apply mapM_Some in Hjs.
      apply list_elem_of_lookup in Hin as [k Hk].
      destruct (Forall2_lookup_r _ _ _ _ _ Hjs Hk) as (p & Hp & Hnorm).
      apply norm_index_some in Hnorm as [_ [-> | ->]].
      * apply Hno1. by eapply list_elem_of_lookup_2.
      * apply Hno2. by eapply list_elem_of_lookup_2.
Qed.


(** C10, with the two ways in which the label write fails: a masked
    position at or beyond [max_seq_length] is neither truncated nor
    skipped, and the encoder raises for every such example.  When the
    labels can be assigned to the positions (one label per position, or a
    single label) the exception is the out-of-bounds [IndexError] of the
    label write; when they cannot it is the [ValueError] of the shape
    check of the same write, which comes first. *)
Theorem encode_masked_position_out_of_bounds (example : Example) (p : Z) :
  p ∈ ex_masked_lm_positions example ->
  Z.of_nat max_seq_length <= p ->
  (length (ex_masked_lm_labels example)
     = length (ex_masked_lm_positions example)
   \/ length (ex_masked_lm_labels example) = 1%nat ->
   convert_example_to_features example tokenizer max_seq_length
   = Raise IndexError)
  /\ (length (ex_masked_lm_labels example)
        ≠ length (ex_masked_lm_positions example) ->
      length (ex_masked_lm_labels example) ≠ 1%nat ->
      convert_example_to_features example tokenizer max_seq_length
      = Raise ValueError).
Proof.
  intros Hin Hp.
  rewrite convert_example_to_features_eq.
  assert (mapM (norm_index (length (Np.full max_seq_length (-1))))
               (ex_masked_lm_positions example) = None) as Hbounds.
  { apply mapM_None. apply Exists_exists. exists p. split; [done|].
    apply norm_index_above. unfold Np.full. by rewrite length_replicate. }
  unfold Np.set_at, Np.broadcast, convert_tokens_to_ids.
  rewrite length_fmap. split.
  - intros Hfit. case_decide as Hsame.
    + by rewrite Hbounds.
    + destruct Hfit as [Hfit|Hone]; [done|].
      destruct (ex_masked_lm_labels example) as [|l1 [|l2 ls]];
        simpl in *; try discriminate.
      by rewrite Hbounds.
  - intros Hne Hone. rewrite decide_False by done.
    destruct (ex_masked_lm_labels example) as [|l1 [|l2 ls]];
      simpl in *; done.
Qed.

End Encoder.

(** ** Corpus shards *)

Lemma scan_shards_counts (c : Corpus) (num_train_epochs available : nat) :
  (0 < available)%nat ->
  (forall i : nat, (i < available)%nat -> shard_present c (Z.of_nat i) = true) ->
  shard_present c (Z.of_nat available) = false ->
  forall (k i : nat) (samples : list nat),
    (i + k = num_train_epochs)%nat -> (i <= available)%nat ->
    exists samples',
      scan_shards c num_train_epochs (Z.of_nat <$> seq i k) samples
      = Ok (Z.of_nat (Nat.min available num_train_epochs), samples').
Proof.
  intros Hpos Hpresent Habsent.
  induction k as [|k IH]; intros i samples Hsum Hle; simpl.
  - exists samples. do 2 f_equal. lia.
  - destruct (decide (i < available)%nat) as [Hlt|Hge].
    + rewrite (Hpresent i Hlt). apply IH; lia.
    + assert (i = available) as -> by lia.
      rewrite Habsent.
      replace (Z.of_nat available =? 0) with false by (symmetry; lia).
      exists samples. do 2 f_equal. lia.
Qed.

Lemma dataset_init_ok (c : Corpus) (epoch : Z) (tokenizer : Tokenizer)
    (num_data_epochs : Z) (ds : PregeneratedDataset) :
  PregeneratedDataset_init c epoch tokenizer num_data_epochs = Ok ds ->
  num_data_epochs ≠ 0
  /\ data_epoch ds = epoch mod num_data_epochs
  /\ shard_present c (data_epoch ds) = true
  /\ num_samples ds = num_training_examples (read_metrics c (data_epoch ds))
  /\ seq_len ds = max_seq_len (read_metrics c (data_epoch ds))
  /\ for_each (load_line tokenizer (num_samples ds) (seq_len ds))
              (enumerate (read_examples c (data_epoch ds)))
              (replicate (num_samples ds) (empty_row (seq_len ds)))
     = Ok (ds_rows ds).
Proof.
  unfold PregeneratedDataset_init, data_epoch_of. intros Hds.
  destruct (num_data_epochs =? 0) eqn:Hz; [discriminate|].
  apply Z.eqb_neq in Hz. simpl bind in Hds.
  destruct (negb _) eqn:Hfiles; [discriminate|].
  apply negb_false_iff in Hfiles.
  apply bind_ok in Hds as (rows & Hrows & [= <-]). simpl.
  repeat split; done.
Qed.

Lemma load_lines_ok (tokenizer : Tokenizer) (ns sl : nat)
    (examples : list Example) :
  forall (start : nat) (rows rows' : list InputFeatures),
    for_each (load_line tokenizer ns sl)
             (enumerate_from (Z.of_nat start) examples) rows = Ok rows' ->
    length rows = ns ->
    length rows' = ns
    /\ (examples ≠ [] -> (start + length examples <= ns)%nat)
    /\ (forall (i : nat) ex, examples !! i = Some ex ->
          exists f, convert_example_to_features ex tokenizer sl = Ok f
                    /\ rows' !! (start + i)%nat = Some f)
    /\ (forall j : nat, (j < start \/ start + length examples <= j)%nat ->
          rows' !! j = rows !! j).
Proof.
  induction examples as [|ex examples IH]; intros start rows rows' Hrun Hlen.
  - simpl in Hrun. injection Hrun as <-.
    split; [done|]. split; [done|]. split; [|done].
    intros i ex' Hi. done.
  - simpl in Hrun. apply bind_ok in Hrun as (rows1 & Hline & Hrest).
    unfold load_line in Hline. simpl in Hline.
    apply bind_ok in Hline as (f & Hf & Hstore).
    destruct (Z.of_nat ns <=? Z.of_nat start) eqn:Hfull; [discriminate|].
    apply Z.leb_gt in Hfull. injection Hstore as <-.
    rewrite Nat2Z.id in Hrest.
    replace (Z.of_nat start + 1) with (Z.of_nat (S start)) in Hrest by lia.
    destruct (IH (S start) _ rows' Hrest) as (Hlen' & Hfit & Hfilled & Hkept).
    { by rewrite length_insert. }
    split; [done|]. split; [|split].
    + intros _. destruct examples as [|ex2 examples]; simpl; [lia|].
      assert (ex2 :: examples ≠ []) as Hne by done.
      specialize (Hfit Hne). simpl in Hfit. lia.
    + intros [|i] ex' Hi; simpl in Hi.
      * injection Hi as <-. exists f. split; [done|].
        rewrite Nat.add_0_r, Hkept by lia.
        apply list_lookup_insert_eq. lia.
      * destruct (Hfilled i ex' Hi) as (f' & Hf' & Hrow).
        exists f'. split; [done|].
        by replace (start + S i)%nat with (S start + i)%nat by lia.
    + intros j Hj. simpl in Hj.
      rewrite Hkept by lia. apply list_lookup_insert_ne. lia.
Qed.

Lemma load_lines_overflow (tokenizer : Tokenizer) (ns sl : nat)
    (examples : list Example) :
  Forall (fun ex => is_ok (convert_example_to_features ex tokenizer sl))
         examples ->
  forall (start : nat) (rows : list InputFeatures),
    (start <= ns)%nat -> (ns < start + length examples)%nat ->
    for_each (load_line tokenizer ns sl)
             (enumerate_from (Z.of_nat start) examples) rows
    = Raise IndexError.
Proof.
  induction 1 as [|ex examples Hex _ IH]; intros start rows Hle Hlt;
    simpl in *; [lia|].
  apply is_ok_ex in Hex as [f Hf].
  unfold load_line at 1. simpl. rewrite Hf. simpl.
  destruct (Z.of_nat ns <=? Z.of_nat start) eqn:Hfull; [done|].
  apply Z.leb_gt in Hfull. simpl.
  replace (Z.of_nat start + 1) with (Z.of_nat (S start)) by lia.
  apply IH; lia.
Qed.

Lemma dataset_rows_ok (c : Corpus) (epoch : Z) (tokenizer : Tokenizer)
    (num_data_epochs : Z) (ds : PregeneratedDataset) :
  PregeneratedDataset_init c epoch tokenizer num_data_epochs = Ok ds ->
  let lines := read_examples c (data_epoch ds) in
  length (ds_rows ds) = num_samples ds
  /\ (length lines <= num_samples ds)%nat
  /\ (forall (i : nat) ex, lines !! i = Some ex ->
        exists f, convert_example_to_features ex tokenizer (seq_len ds) = Ok f
                  /\ ds_rows ds !! i = Some f)
  /\ (forall j : nat, (length lines <= j < num_samples ds)%nat ->
        ds_rows ds !! j = Some (empty_row (seq_len ds))).
Proof.
  intros Hds lines.
  destruct (dataset_init_ok _ _ _ _ _ Hds) as (_ & _ & _ & _ & _ & Hrows).
  destruct (load_lines_ok tokenizer (num_samples ds) (seq_len ds) lines 0
              _ _ Hrows) as (Hlen & Hfit & Hfilled & Hkept).
  { apply length_replicate. }
  split; [done|]. split; [|split].
  - destruct lines as [|ex lines'] eqn:E; [simpl; lia|].
    assert (ex :: lines' ≠ []) as Hne by done. specialize (Hfit Hne). lia.
  - intros i ex Hi. by apply Hfilled.
  - intros j Hj. rewrite Hkept by lia.
    apply lookup_replicate_2. lia.
Qed.

Lemma load_lines_returns (tokenizer : Tokenizer) (ns sl : nat)
    (examples : list Example) :
  Forall (fun ex => is_ok (convert_example_to_features ex tokenizer sl))
         examples ->
  forall (start : nat) (rows : list InputFeatures),
    (start + length examples <= ns)%nat ->
    exists rows',
      for_each (load_line tokenizer ns sl)
               (enumerate_from (Z.of_nat start) examples) rows
      = Ok rows'.
Proof.
  induction 1 as [|ex examples Hex _ IH]; intros start rows Hfit;
    simpl in *; [by eexists|].
  apply is_ok_ex in Hex as [f Hf].
  unfold load_line at 1. simpl. rewrite Hf. simpl.
  destruct (Z.of_nat ns <=? Z.of_nat start) eqn:Hfull;
    [apply Z.leb_le in Hfull; lia|].
  simpl.
  replace (Z.of_nat start + 1) with (Z.of_nat (S start)) by lia.
  apply IH. lia.
Qed.

(** C6: when the shards of the epochs [0 .. available-1] exist and the
    shard of epoch [available] does not, every epoch [e] of the run is
    backed by the shard [e mod available], and that shard exists: the
    dataset built for epoch [e] takes its number of rows and its window
    from the metrics of that shard and holds in row [i] the encoding of
    line [i] of that shard; and it is built whenever the lines of that
    shard can be encoded and are no more than the metrics declare.  The
    ids are stored in 32-bit arrays; the vocabulary is taken to fit. *)
Theorem epoch_shard_cycles (c : Corpus) (tokenizer : Tokenizer)
    (num_train_epochs available e : nat) :
  (0 < available)%nat ->
  (forall i : nat, (i < available)%nat -> shard_present c (Z.of_nat i) = true) ->
  shard_present c (Z.of_nat available) = false ->
  (e < num_train_epochs)%nat ->
  (forall s, - 2 ^ 31 <= vocab tokenizer s < 2 ^ 31) ->
  let shard := Z.of_nat e mod Z.of_nat available in
  let metrics := read_metrics c shard in
  let lines := read_examples c shard in
  exists num_data_epochs samples_per_epoch,
    count_data_epochs c num_train_epochs
    = Ok (num_data_epochs, samples_per_epoch)
    /\ data_epoch_of (Z.of_nat e) num_data_epochs = Ok shard
    /\ shard_present c shard = true
    /\ (forall ds,
          PregeneratedDataset_init c (Z.of_nat e) tokenizer num_data_epochs
          = Ok ds ->
          data_epoch ds = shard
          /\ num_samples ds = num_training_examples metrics
          /\ seq_len ds = max_seq_len metrics
          /\ length (ds_rows ds) = num_training_examples metrics
          /\ (forall (i : nat) ex, lines !! i = Some ex ->
                exists f,
                  convert_example_to_features ex tokenizer
                    (max_seq_len metrics) = Ok f
                  /\ ds_rows ds !! i = Some f))
    /\ (Forall (fun ex =>
                  is_ok (convert_example_to_features ex tokenizer
                           (max_seq_len metrics))) lines ->
        (length lines <= num_training_examples metrics)%nat ->
        exists ds,
          PregeneratedDataset_init c (Z.of_nat e) tokenizer num_data_epochs
          = Ok ds).
Proof.
  intros Hpos Hpresent Habsent He _ shard metrics lines.
  destruct (scan_shards_counts c num_train_epochs available Hpos Hpresent
              Habsent num_train_epochs 0 []) as [samples Hscan]; [lia..|].
  exists (Z.of_nat (Nat.min available num_train_epochs)), samples.
  assert (Z.of_nat (Nat.min available num_train_epochs) ≠ 0) as Hnz by lia.
  assert (Z.of_nat e mod Z.of_nat (Nat.min available num_train_epochs)
          = shard) as Hmod.
  { unfold shard.
    destruct (Nat.le_gt_cases available num_train_epochs) as [Hle|Hgt].
    - by rewrite Nat.min_l.
    - rewrite Nat.min_r by lia.
      rewrite !Z.mod_small by lia. done. }
  assert (data_epoch_of (Z.of_nat e)
            (Z.of_nat (Nat.min available num_train_epochs))
          = Ok shard) as Hde.
  { unfold data_epoch_of. apply Z.eqb_neq in Hnz. by rewrite Hnz, Hmod. }
  assert (shard_present c shard = true) as Hshard.
  { assert (0 <= shard < Z.of_nat available) as Hrange
      by (apply Z.mod_pos_bound; lia).
    rewrite <- (Z2Nat.id shard) by lia.
    apply Hpresent. lia. }
  split; [exact Hscan|]. split; [exact Hde|]. split; [exact Hshard|]. split.
  - intros ds Hds.
    destruct (dataset_init_ok _ _ _ _ _ Hds)
      as (_ & Hdata & _ & Hsamples & Hseq & _).
    destruct (dataset_rows_ok _ _ _ _ _ Hds) as (Hlen & _ & Hfilled & _).
    rewrite Hmod in Hdata. rewrite Hdata in Hsamples, Hseq, Hfilled.
    rewrite Hsamples in Hlen. rewrite Hseq in Hfilled.
    repeat split; done.
  - intros Hlines Hfit. unfold PregeneratedDataset_init.
    rewrite Hde. simpl bind.
    unfold shard_present in Hshard. rewrite Hshard. simpl negb. cbv iota.
    destruct (load_lines_returns tokenizer (num_training_examples metrics)
                (max_seq_len metrics) lines Hlines 0
                (replicate (num_training_examples metrics)
                           (empty_row (max_seq_len metrics))))
      as [rows Hrows]; [simpl; lia|].
    unfold enumerate. fold shard. fold metrics. fold lines.
    change (Z.of_nat 0) with 0 in Hrows. rewrite Hrows. simpl.
    by eexists.
Qed.

(** ** Layer alignment *)

Lemma comprehension_ok {A B : Type} (f : A -> Res B) (l : list A) :
  Forall (fun x => is_ok (f x)) l ->
  exists ys, comprehension f l = Ok ys /\ Forall2 (fun x y => f x = Ok y) l ys.
Proof.
  induction 1 as [|x l Hx _ (ys & Hys & Hall)]; simpl.
  - exists []. split; [done|constructor].
  - apply is_ok_ex in Hx as [y Hy]. rewrite Hy, Hys. simpl.
    exists (y :: ys). split; [done|]. by constructor.
Qed.

Lemma py_get_in_range {A : Type} (l : list A) (j : Z) :
  0 <= j < Z.of_nat (length l) ->
  exists x, py_get l j = Ok x /\ l !! Z.to_nat j = Some x.
Proof.
  intros Hj. unfold py_get, norm_index.
  replace ((0 <=? j) && (j <? Z.of_nat (length l))) with true
    by (symmetry; apply andb_true_iff; lia).
  destruct (lookup_lt_is_Some_2 l (Z.to_nat j)) as [x Hx]; [lia|].
  exists x. by rewrite Hx.
Qed.

Lemma range_lookup (n i : nat) :
  (i < n)%nat -> range n !! i = Some (Z.of_nat i).
Proof.
  intros Hi. unfold range. rewrite list_lookup_fmap.
  by rewrite lookup_seq_lt.
Qed.

Lemma range_length (n : nat) : length (range n) = n.
Proof. unfold range. by rewrite length_fmap, length_seq. Qed.

(** Every index of a comprehension over [range n] that stays inside the
    list selects the element at that index. *)
Lemma select_layers {A : Type} (layers : list A) (index : Z -> Z) (n : nat) :
  (forall i : nat, (i < n)%nat ->
     0 <= index (Z.of_nat i) < Z.of_nat (length layers)) ->
  exists picked,
    comprehension (fun i => py_get layers (index i)) (range n) = Ok picked
    /\ length picked = n
    /\ (forall i : nat, (i < n)%nat ->
          picked !! i = layers !! Z.to_nat (index (Z.of_nat i))
          /\ is_Some (picked !! i)).
Proof.
  intros Hidx.
  destruct (comprehension_ok (fun i => py_get layers (index i)) (range n))
    as (picked & Hpicked & Hall).
  { apply Forall_lookup. intros i z Hz.
    assert (i < n)%nat as Hi.
    { apply lookup_lt_Some in Hz. by rewrite range_length in Hz. }
    rewrite range_lookup in Hz by done. injection Hz as <-.
    destruct (py_get_in_range layers (index (Z.of_nat i)) (Hidx i Hi))
      as (x & -> & _). done. }
  exists picked. split; [done|].
  pose proof (Forall2_length _ _ _ Hall) as Hlen.
  rewrite range_length in Hlen. split; [done|].
  intros i Hi.
  destruct (lookup_lt_is_Some_2 picked i) as [y Hy]; [lia|].
  pose proof (range_lookup n i Hi) as Hr.
  pose proof (Forall2_lookup_lr _ _ _ _ _ _ Hall Hr Hy) as Hget.
  destruct (py_get_in_range layers (index (Z.of_nat i)) (Hidx i Hi))
    as (x & Hx & Hlook).
  cbv beta in Hget. rewrite Hx in Hget. injection Hget as ->.
  rewrite Hy, Hlook. eauto.
Qed.

(** C3: with [T] teacher layers, [S] student layers and [S] dividing [T],
    the attention loss pairs student layer [i] with teacher layer
    [i*lpb + lpb - 1] for [i < S] and the representation loss pairs student
    representation [i] with teacher representation [i*lpb] for [i <= S],
    where [lpb = T/S]: the two losses of a batch are the pair losses added
    up over exactly these [S] and [S + 1] pairs, in this order. *)
Theorem layer_alignment (act : Activations) (T S : nat) :
  length (teacher_atts act) = T ->
  length (teacher_reps act) = (T + 1)%nat ->
  length (student_atts act) = S ->
  length (student_reps act) = (S + 1)%nat ->
  (0 < S)%nat -> (0 < T)%nat -> Z.of_nat T mod Z.of_nat S = 0 ->
  let lpb := Z.of_nat T / Z.of_nat S in
  layers_per_block (Z.of_nat T) (Z.of_nat S) = Ok lpb
  /\ exists att_pairs rep_pairs,
       distill_losses act
       = (let* att_loss :=
            for_each (add_loss att_pair_loss) att_pairs 0%Q in
          let* rep_loss :=
            for_each (add_loss rep_pair_loss) rep_pairs 0%Q in
          Ok (att_loss, rep_loss))
       /\ length att_pairs = S
       /\ length rep_pairs = (S + 1)%nat
       /\ (forall i : nat, (i < S)%nat ->
             exists s t,
               student_atts act !! i = Some s
               /\ teacher_atts act !! Z.to_nat (Z.of_nat i * lpb + lpb - 1)
                  = Some t
               /\ att_pairs !! i = Some (s, t))
       /\ (forall i : nat, (i <= S)%nat ->
             exists s t,
               student_reps act !! i = Some s
               /\ teacher_reps act !! Z.to_nat (Z.of_nat i * lpb) = Some t
               /\ rep_pairs !! i = Some (s, t)).
Proof.
  intros HTa HTr HSa HSr HS HT Hdiv lpb.
  assert (Z.of_nat T = Z.of_nat S * lpb) as Hmul.
  { unfold lpb. pose proof (Z.div_mod (Z.of_nat T) (Z.of_nat S)). lia. }
  assert (1 <= lpb) as Hlpb by nia.
  assert (layers_per_block (Z.of_nat T) (Z.of_nat S) = Ok lpb) as Hblock.
  { unfold layers_per_block.
    replace (Z.of_nat S =? 0) with false by (symmetry; lia).
    rewrite Hdiv. done. }
  split; [exact Hblock|].
  destruct (select_layers (teacher_atts act) (fun i => i * lpb + lpb - 1) S)
    as (nta & Hnta & Hlen_a & Hpick_a).
  { intros i Hi. rewrite HTa. nia. }
  destruct (select_layers (teacher_reps act) (fun i => i * lpb) (S + 1))
    as (ntr & Hntr & Hlen_r & Hpick_r).
  { intros i Hi. rewrite HTr. nia. }
  exists (zip (student_atts act) nta), (zip (student_reps act) ntr).
  split.
  { unfold distill_losses, new_teacher_atts, new_teacher_reps.
    rewrite HTa, HSa, Hblock. cbn [bind]. rewrite Hnta. cbn [bind].
    destruct (for_each (add_loss att_pair_loss) _ _); cbn [bind]; [|done].
    by rewrite Hntr. }
  split; [rewrite length_zip_with; lia|].
  split; [rewrite length_zip_with; lia|].
  split.
  - intros i Hi.
    destruct (lookup_lt_is_Some_2 (student_atts act) i) as [s Hs]; [lia|].
    destruct (Hpick_a i Hi) as [Heq [t Ht]].
    exists s, t. split; [done|]. split; [by rewrite <- Heq|].
    apply lookup_zip_with_Some. eauto.
  - intros i Hi.
    destruct (lookup_lt_is_Some_2 (student_reps act) i) as [s Hs]; [lia|].
    destruct (Hpick_r i ltac:(lia)) as [Heq [t Ht]].
    exists s, t. split; [done|]. split; [by rewrite <- Heq|].
    apply lookup_zip_with_Some. eauto.
Qed.

(** ** Attention sentinel *)

Lemma zero_sentinel_le (x : Q) : (x <= -100 # 1)%Q -> zero_sentinel x = 0%Q.
Proof.
  intros H. unfold zero_sentinel.
  apply Qle_bool_iff in H. by rewrite H.
Qed.

Lemma where_sentinel_lookup (att : Tensor) (i : nat) (x : Q) :
  att !! i = Some x -> where_sentinel att !! i = Some (zero_sentinel x).
Proof.
  intros H. unfold where_sentinel. by rewrite list_lookup_fmap, H.
Qed.

(** C7: in the attention loss every entry at or below -100 is replaced by
    zero in the student tensor and in the teacher tensor before the mean
    squared error is taken, so an entry that holds the sentinel on both
    sides adds the term zero to the sum of squared differences. *)
Theorem attention_sentinel_zeroed (student_att teacher_att : Tensor) :
  (forall i x, student_att !! i = Some x -> (x <= -100 # 1)%Q ->
     where_sentinel student_att !! i = Some 0%Q)
  /\ (forall i y, teacher_att !! i = Some y -> (y <= -100 # 1)%Q ->
        where_sentinel teacher_att !! i = Some 0%Q)
  /\ (forall i x y,
        student_att !! i = Some x -> teacher_att !! i = Some y ->
        (x <= -100 # 1)%Q -> (y <= -100 # 1)%Q ->
        zip_with sq_err (where_sentinel student_att)
                        (where_sentinel teacher_att) !! i = Some 0%Q)
  /\ (length student_att = length teacher_att ->
      att_pair_loss (student_att, teacher_att)
      = Ok (Qsum (zip_with sq_err (where_sentinel student_att)
                                  (where_sentinel teacher_att))
            / inject_Z (Z.of_nat (length student_att)))%Q).
Proof.
  repeat split.
  - intros i x Hx Hle.
    by rewrite (where_sentinel_lookup _ _ _ Hx), (zero_sentinel_le _ Hle).
  - intros i y Hy Hle.
    by rewrite (where_sentinel_lookup _ _ _ Hy), (zero_sentinel_le _ Hle).
  - intros i x y Hx Hy Hlx Hly.
    apply lookup_zip_with_Some. exists 0%Q, 0%Q.
    split; [done|]. split.
    + by rewrite (where_sentinel_lookup _ _ _ Hx), (zero_sentinel_le _ Hlx).
    + by rewrite (where_sentinel_lookup _ _ _ Hy), (zero_sentinel_le _ Hly).
  - intros Hlen. unfold att_pair_loss, loss_mse. simpl.
    assert (length (where_sentinel student_att) = length student_att) as Hs
      by apply length_fmap.
    assert (length (where_sentinel teacher_att) = length teacher_att) as Ht
      by apply length_fmap.
    rewrite decide_True by congruence. by rewrite Hs.
Qed.

(** ** Training loop *)

Lemma update_events_app (l1 l2 : list Event) :
  update_events (l1 ++ l2) = update_events l1 ++ update_events l2.
Proof.
  induction l1 as [|e l1 IH]; simpl; [done|].
  destruct (is_update_event e); simpl; by rewrite IH.
Qed.

Lemma update_events_emit (e : Event) (st : TrainState) :
  is_update_event e = false ->
  update_events (trace (emit e st)) = update_events (trace st).
Proof.
  intros He. simpl. rewrite update_events_app. simpl. rewrite He.
  apply app_nil_r.
Qed.

Lemma advanced_refl (st : TrainState) : advanced 0 st st.
Proof.
  unfold advanced. simpl. rewrite app_nil_r. split; [lia|done].
Qed.

Lemma advanced_trans (j k : nat) (st1 st2 st3 : TrainState) :
  advanced j st1 st2 -> advanced k st2 st3 -> advanced (j + k) st1 st3.
Proof.
  intros [Hg1 Hu1] [Hg2 Hu2]. split; [lia|].
  rewrite Hu2, Hu1, replicate_add, concat_app. by rewrite app_assoc.
Qed.

Lemma advanced_emit (e : Event) (k : nat) (st st' : TrainState) :
  is_update_event e = false ->
  advanced k st st' -> advanced k st (emit e st').
Proof.
  intros He [Hg Hu]. split; [done|]. by rewrite update_events_emit.
Qed.

Lemma advanced_accumulate (a r l : Q) (n : Z) (k : nat) (st st' : TrainState) :
  advanced k st st' -> advanced k st (accumulate a r l n st').
Proof. done. Qed.

Lemma advanced_optimizer_update (st : TrainState) :
  advanced 1 st (optimizer_update st).
Proof.
  split; simpl; [lia|].
  by rewrite <- app_assoc, update_events_app.
Qed.

Lemma advanced_save_snapshot (epoch step : Z) (k : nat) (st st' : TrainState) :
  advanced k st st' -> advanced k st (save_snapshot epoch step st').
Proof.
  intros [Hg Hu]. split; [done|]. simpl.
  rewrite <- app_assoc, update_events_app. simpl. by rewrite app_nil_r.
Qed.

Lemma advanced_log_eval (r : Run) (res : EvalResult) (k : nat)
    (st st' : TrainState) :
  advanced k st st' -> advanced k st (log_eval r res st').
Proof.
  intros H. unfold log_eval. by repeat apply advanced_emit.
Qed.

Lemma master_step_advanced (r : Run) (epoch step : Z) (m1 m2 m3 : Q) (k : nat)
    (st st' : TrainState) :
  eval_step (run_args r) ≠ 0 ->
  advanced k st st' ->
  exists st'', master_step r epoch step m1 m2 m3 st' = Ok st''
               /\ advanced k st st''.
Proof.
  intros Hev Hadv. unfold master_step.
  apply Z.eqb_neq in Hev. rewrite Hev.
  set (st1 := if step mod 10 =? 0 then _ else _).
  assert (advanced k st st1) as H1.
  { unfold st1. destruct (step mod 10 =? 0); [|done].
    by apply advanced_save_snapshot. }
  destruct ((global_step st1 + 1) mod eval_step (run_args r) =? 0);
    eexists; (split; [reflexivity|]); [|done].
  by apply advanced_log_eval.
Qed.

(** The resume guard does not look at the epoch. *)
Lemma resume_guard_in_any_epoch (r : Run) (epoch : Z) (st : TrainState)
    (step : Z) (batch : Batch) :
  step < ep_step r -> train_batch r epoch st (step, batch) = Ok st.
Proof.
  intros H. unfold train_batch. simpl.
  apply Z.ltb_lt in H. by rewrite H.
Qed.

(** A batch stopped by one of the two guards leaves the state as it is. *)
Lemma train_batch_skipped (r : Run) (epoch : Z) (st : TrainState)
    (step : Z) (batch : Batch) :
  processed r step batch = false ->
  train_batch r epoch st (step, batch) = Ok st.
Proof.
  unfold processed, train_batch. simpl. intros H.
  destruct (step <? ep_step r); [done|].
  destruct (batch_size batch =? per_gpu_batch_size r); [discriminate|done].
Qed.

Lemma distill_losses_student_atts (act : Activations) (losses : Q * Q) :
  distill_losses act = Ok losses -> student_atts act ≠ [].
Proof.
  unfold distill_losses, layers_per_block. intros H Hnil.
  rewrite Hnil in H. simpl in H. discriminate.
Qed.

(** On a batch that is [batch_ok] both losses are tensors. *)
Lemma batch_ok_items (b : Batch) :
  batch_ok b ->
  exists att_loss rep_loss,
    distill_losses (activations b) = Ok (att_loss, rep_loss)
    /\ item (student_atts (activations b)) att_loss = Ok att_loss
    /\ item (student_reps (activations b)) rep_loss = Ok rep_loss.
Proof.
  intros [Hok Hreps]. apply is_ok_ex in Hok as [[att_loss rep_loss] Hloss].
  pose proof (distill_losses_student_atts _ _ Hloss) as Hatts.
  exists att_loss, rep_loss. split; [done|].
  destruct (student_atts (activations b)); [done|].
  destruct (student_reps (activations b)); done.
Qed.

(** A processed batch moves the three counters together, by one when its
    raw index closes an accumulation group and not at all otherwise. *)
Lemma train_batch_processed (r : Run) (epoch : Z) (st : TrainState)
    (step : Z) (batch : Batch) :
  1 <= gradient_accumulation_steps (run_args r) ->
  run_rank r ≠ 0 \/ eval_step (run_args r) ≠ 0 ->
  batch_ok batch ->
  processed r step batch = true ->
  exists st',
    train_batch r epoch st (step, batch) = Ok st'
    /\ advanced
         (if (step + 1) mod gradient_accumulation_steps (run_args r) =? 0
          then 1%nat else 0%nat) st st'.
Proof.
  intros HN Hrank Hok Hproc.
  unfold processed in Hproc. apply andb_true_iff in Hproc as [Hp1 Hp2].
  unfold train_batch. simpl.
  destruct (step <? ep_step r); [discriminate|].
  rewrite Hp2. simpl.
  apply batch_ok_items in Hok as (att_loss & rep_loss & Hloss & Hatt & Hrep).
  rewrite Hloss. simpl. rewrite Hatt, Hrep. simpl.
  replace (gradient_accumulation_steps (run_args r) =? 0) with false
    by (symmetry; apply Z.eqb_neq; lia).
  set (st1 := accumulate _ _ _ _ _).
  assert (advanced 0 st st1) as H1.
  { unfold st1. apply advanced_accumulate.
    by repeat apply advanced_emit; try apply advanced_refl. }
  set (k := if (step + 1) mod _ =? 0 then 1%nat else 0%nat).
  set (st2 := if (step + 1) mod _ =? 0 then _ else _).
  assert (advanced k st st2) as H2.
  { unfold k, st2.
    destruct ((step + 1) mod gradient_accumulation_steps (run_args r) =? 0);
      [|done].
    apply (advanced_trans 0 1 st st1); [done|].
    apply advanced_optimizer_update. }
  destruct (run_rank r =? 0) eqn:Hr0.
  - destruct Hrank as [Hrank|Hev]; [apply Z.eqb_eq in Hr0; done|].
    by apply master_step_advanced.
  - eauto.
Qed.

Lemma train_batches_advance (r : Run) (epoch : Z) (batches : list Batch) :
  1 <= gradient_accumulation_steps (run_args r) ->
  run_rank r ≠ 0 \/ eval_step (run_args r) ≠ 0 ->
  Forall batch_ok batches ->
  forall (start : Z) (st : TrainState),
  exists st',
    for_each (train_batch r epoch) (enumerate_from start batches) st = Ok st'
    /\ advanced (updates r start batches) st st'.
Proof.
  intros HN Hrank Hok.
  induction Hok as [|b bs Hb _ IH]; intros start st; simpl.
  - exists st. split; [done|apply advanced_refl].
  - destruct (processed r start b) eqn:Hproc.
    + destruct (train_batch_processed r epoch st start b HN Hrank Hb Hproc)
        as (st1 & -> & H1). simpl.
      destruct (IH (start + 1) st1) as (st' & -> & H').
      exists st'. split; [done|]. by eapply advanced_trans.
    + rewrite (train_batch_skipped _ _ _ _ _ Hproc). simpl.
      destruct (IH (start + 1) st) as (st' & -> & H').
      exists st'. split; [done|]. exact H'.
Qed.

Lemma div_succ (s n : Z) :
  1 <= n -> (s + 1) / n = s / n + (if (s + 1) mod n =? 0 then 1 else 0).
Proof.
  intros Hn.
  pose proof (Z.div_mod s n ltac:(lia)) as Hs.
  pose proof (Z.mod_pos_bound s n ltac:(lia)) as Hsm.
  pose proof (Z.div_mod (s + 1) n ltac:(lia)) as Hs1.
  pose proof (Z.mod_pos_bound (s + 1) n ltac:(lia)) as Hs1m.
  destruct ((s + 1) mod n =? 0) eqn:E.
  - apply Z.eqb_eq in E. nia.
  - apply Z.eqb_neq in E. nia.
Qed.

(** Without skipped batches the updates are the completed groups. *)
Lemma updates_all_processed (r : Run) (batches : list Batch) :
  1 <= gradient_accumulation_steps (run_args r) ->
  Forall (fun b => batch_size b = per_gpu_batch_size r) batches ->
  forall start : Z,
    ep_step r <= start ->
    Z.of_nat (updates r start batches)
    = (start + Z.of_nat (length batches)) / gradient_accumulation_steps (run_args r)
      - start / gradient_accumulation_steps (run_args r).
Proof.
  intros HN Hfull.
  induction Hfull as [|b bs Hb _ IH]; intros start Hstart; simpl updates.
  - simpl. rewrite Z.add_0_r. lia.
  - rewrite Nat2Z.inj_add, IH by lia.
    assert (processed r start b = true) as ->.
    { unfold processed. apply andb_true_iff. split.
      - apply negb_true_iff. apply Z.ltb_ge. lia.
      - apply Z.eqb_eq. done. }
    rewrite (div_succ start _ HN). simpl length.
    replace (start + 1 + Z.of_nat (length bs))
      with (start + Z.of_nat (S (length bs))) by lia.
    simpl andb.
    destruct ((start + 1) mod gradient_accumulation_steps (run_args r) =? 0);
      lia.
Qed.

Lemma forward_steps_app (l1 l2 : list Event) :
  forward_steps (l1 ++ l2) = forward_steps l1 ++ forward_steps l2.
Proof.
  induction l1 as [|e l1 IH]; simpl; [done|].
  destruct e; simpl; by rewrite ?IH.
Qed.

Lemma io_events_app (l1 l2 : list Event) :
  io_events (l1 ++ l2) = io_events l1 ++ io_events l2.
Proof.
  induction l1 as [|e l1 IH]; simpl; [done|].
  destruct (is_io_event e); simpl; by rewrite IH.
Qed.

Ltac trace_simpl :=
  simpl;
  rewrite <- ?app_assoc;
  rewrite ?forward_steps_app, ?io_events_app, ?update_events_app;
  simpl;
  rewrite ?app_nil_r.

(** What one processed batch does to the state, when the loop body
    returns. *)
Lemma train_batch_ok_step (r : Run) (epoch : Z) (st st' : TrainState)
    (step : Z) (batch : Batch) :
  train_batch r epoch st (step, batch) = Ok st' ->
  processed r step batch = true ->
  nb_tr_steps st' = nb_tr_steps st + 1
  /\ nb_tr_examples st' = nb_tr_examples st + per_gpu_batch_size r
  /\ forward_steps (trace st') = forward_steps (trace st) ++ [(epoch, step)]
  /\ (run_rank r ≠ 0 ->
      io_events (trace st') = io_events (trace st)
      /\ resume_checkpoint st' = resume_checkpoint st)
  /\ (run_rank r = 0 -> step mod 10 = 0 ->
      resume_checkpoint st'
      = Some {| snap_ep_step := step;
                snap_epoch := epoch;
                snap_global_step := global_step st' |})
  /\ (run_rank r = 0 -> step mod 10 ≠ 0 ->
      resume_checkpoint st' = resume_checkpoint st)
  /\ advanced
       (if (step + 1) mod gradient_accumulation_steps (run_args r) =? 0
        then 1%nat else 0%nat) st st'.
Proof.
  intros Hrun Hproc.
  unfold processed in Hproc. apply andb_true_iff in Hproc as [Hp1 Hp2].
  apply negb_true_iff in Hp1. apply Z.eqb_eq in Hp2 as Hsize.
  unfold train_batch in Hrun. simpl in Hrun.
  rewrite Hp1, Hp2 in Hrun. simpl in Hrun.
  destruct (distill_losses (activations batch)) as [[att_loss rep_loss]|];
    [|discriminate].
  simpl in Hrun.
  destruct (student_atts (activations batch)); [discriminate|].
  destruct (student_reps (activations batch)); [discriminate|].
  simpl in Hrun.
  destruct (gradient_accumulation_steps (run_args r) =? 0); [discriminate|].
  unfold master_step in Hrun.
  destruct ((step + 1) mod gradient_accumulation_steps (run_args r) =? 0);
    destruct (Z.eqb_spec (run_rank r) 0) as [Hrank|Hrank];
    destruct (Z.eqb_spec (step mod 10) 0) as [Hten|Hten];
    destruct (eval_step (run_args r) =? 0); try discriminate;
    try (destruct (_ =? 0) in Hrun);
    injection Hrun as <-;
    unfold advanced;
    repeat split; try intros; try done; trace_simpl; try done; try lia.
Qed.

(** What the batch loop of an epoch does to the state, when it returns. *)
Lemma train_batches_ok_inv (r : Run) (epoch : Z) (batches : list Batch) :
  forall (start : Z) (st st' : TrainState),
    for_each (train_batch r epoch) (enumerate_from start batches) st = Ok st' ->
    let steps := processed_steps r start batches in
    nb_tr_steps st' = nb_tr_steps st + Z.of_nat (length steps)
    /\ nb_tr_examples st'
       = nb_tr_examples st + per_gpu_batch_size r * Z.of_nat (length steps)
    /\ forward_steps (trace st')
       = forward_steps (trace st) ++ (pair epoch <$> steps)
    /\ advanced (updates r start batches) st st'
    /\ (run_rank r ≠ 0 ->
        io_events (trace st') = io_events (trace st)
        /\ resume_checkpoint st' = resume_checkpoint st).
Proof.
  induction batches as [|b bs IH]; intros start st st' Hrun; simpl in Hrun.
  - injection Hrun as <-. simpl. rewrite app_nil_r.
    repeat split; try lia. apply advanced_refl.
  - apply bind_ok in Hrun as (st1 & Hstep & Hrest).
    destruct (IH _ _ _ Hrest) as (Hn & Hx & Hf & Ha & Hio).
    simpl. destruct (processed r start b) eqn:Hproc.
    + destruct (train_batch_ok_step _ _ _ _ _ _ Hstep Hproc)
        as (Hn1 & Hx1 & Hf1 & Hio1 & _ & _ & Ha1).
      simpl. split; [lia|]. split; [lia|]. split.
      { rewrite Hf, Hf1, <- app_assoc. done. }
      split.
      { by eapply advanced_trans. }
      intros Hrank. destruct (Hio Hrank) as [-> ->]. by apply Hio1.
    + rewrite (train_batch_skipped _ _ _ _ _ Hproc) in Hstep.
      injection Hstep as <-. simpl. done.
Qed.

(** C2, with the skipped batches accounted for: for every
    [gradient_accumulation_steps >= 1] the optimizer step, the gradient
    clearing and the increment of the global step happen together, once for
    each batch that is processed (neither fast-forwarded by the resume guard
    nor dropped by the batch-size guard) and whose raw index [step]
    satisfies [(step + 1) mod N = 0], and for no other batch: whenever the
    batch loop of an epoch ends without an exception, the global step has
    moved by the number of those batches, and the optimizer steps and
    gradient clearings of the epoch are that many pairs of one step followed
    by one clearing.  The loop does end without an exception when the
    losses of every batch are computed, the student returns at least one
    representation on every batch, and the process is not the master or
    [eval_step] is not zero.  When no batch of the epoch is skipped the
    number of updates is [len(batches) / N], rounded down: once every [N]
    raw batches and not for a final incomplete group. *)
Theorem accumulation_updates (r : Run) (epoch : Z) (batches : list Batch)
    (st : TrainState) :
  1 <= gradient_accumulation_steps (run_args r) ->
  (forall st',
     train_batches r epoch batches st = Ok st' ->
     global_step st' = global_step st + Z.of_nat (updates r 0 batches)
     /\ update_events (trace st')
        = update_events (trace st)
          ++ concat (replicate (updates r 0 batches) update_block))
  /\ (run_rank r ≠ 0 \/ eval_step (run_args r) ≠ 0 ->
      Forall batch_ok batches ->
      exists st', train_batches r epoch batches st = Ok st')
  /\ (ep_step r <= 0 ->
      Forall (fun b => batch_size b = per_gpu_batch_size r) batches ->
      Z.of_nat (updates r 0 batches)
      = Z.of_nat (length batches) / gradient_accumulation_steps (run_args r)).
Proof.
  intros HN. split; [|split].
  - intros st' Hrun.
    destruct (train_batches_ok_inv r epoch batches 0 st st' Hrun)
      as (_ & _ & _ & Hadvanced & _).
    exact Hadvanced.
  - intros Hrank Hok.
    destruct (train_batches_advance r epoch batches HN Hrank Hok 0 st)
      as (st' & Hrun & _).
    by exists st'.
  - intros Hresume Hfull.
    rewrite (updates_all_processed r batches HN Hfull 0 Hresume).
    rewrite Z.div_0_l by lia. rewrite Z.add_0_l. lia.
Qed.

(** C9: a batch whose size is not the per-device batch size is skipped as
    a whole: the loop body returns the state it was given, so no forward
    or backward pass is recorded and the running sums, the example count
    and the step count keep their values. *)
Theorem odd_sized_batch_skipped (r : Run) (epoch : Z) (st : TrainState)
    (step : Z) (batch : Batch) :
  batch_size batch ≠ per_gpu_batch_size r ->
  train_batch r epoch st (step, batch) = Ok st.
Proof.
  intros Hsize. apply train_batch_skipped. unfold processed.
  apply Z.eqb_neq in Hsize. rewrite Hsize. apply andb_false_r.
Qed.

(** ** The properties at concrete inputs *)

(** An example whose only masked position lies beyond the window is not
    encoded, although its single token fits. *)
Lemma encode_padded_counterexample :
  (length (ex_tokens Sample.ex_out_of_range) <= 2)%nat
  /\ convert_example_to_features Sample.ex_out_of_range Sample.tok 2
     = Raise IndexError
  /\ ~ (exists f,
          convert_example_to_features Sample.ex_out_of_range Sample.tok 2
          = Ok f
          /\ length (lm_label_ids f) = 2%nat).
Proof.
  split; [simpl; lia|]. split; [reflexivity|].
  intros (f & Hf & _). vm_compute in Hf. discriminate.
Qed.

Lemma encode_padded_witness :
  (length (ex_tokens Sample.ex_short) <= 5)%nat
  /\ exists f,
       convert_example_to_features Sample.ex_short Sample.tok 5 = Ok f
       /\ length (input_ids f) = 5%nat
       /\ length (input_mask f) = 5%nat
       /\ length (segment_ids f) = 5%nat
       /\ length (lm_label_ids f) = 5%nat
       /\ (forall i : nat, (i < 5)%nat ->
             input_mask f !! i
             = Some (bool_decide (i < length (ex_tokens Sample.ex_short))%nat))
       /\ (forall i : nat, (i < 5)%nat ->
             Z.of_nat i ∉ ex_masked_lm_positions Sample.ex_short ->
             Z.of_nat i - Z.of_nat 5
               ∉ ex_masked_lm_positions Sample.ex_short ->
             lm_label_ids f !! i = Some (-1)).
Proof.
  split; [simpl; lia|].
  apply (encode_padded Sample.tok 5 Sample.ex_short).
  - simpl. lia.
  - each_entry lia.
  - reflexivity.
Defined.

Example encode_short_value :
  convert_example_to_features Sample.ex_short Sample.tok 5
  = Ok {| input_ids := [1; 2; 3; 0; 0];
          input_mask := [true; true; true; false; false];
          segment_ids := [false; true; true; false; false];
          lm_label_ids := [-1; 4; -1; -1; -1];
          is_next := true |}.
Proof. reflexivity. Qed.

(** Five tokens in a window of three: the first three are kept, and the
    five segment ids, which no longer match, give way to zeros. *)
Example encode_long_value :
  convert_example_to_features Sample.ex_long Sample.tok 3
  = Ok {| input_ids := [1; 2; 3];
          input_mask := [true; true; true];
          segment_ids := [false; false; false];
          lm_label_ids := [-1; -1; 6];
          is_next := false |}.
Proof. reflexivity. Qed.



(** Without a label for the position, the shape check of the write fails
    before the position is looked at. *)
Lemma encode_masked_position_out_of_bounds_counterexample :
  5 ∈ ex_masked_lm_positions Fixture.ex_beyond_unlabelled
  /\ Z.of_nat 2 <= 5
  /\ convert_example_to_features Fixture.ex_beyond_unlabelled Sample.tok 2
     = Raise ValueError
  /\ convert_example_to_features Fixture.ex_beyond_unlabelled Sample.tok 2
     ≠ Raise IndexError.
Proof.
  split; [simpl; apply list_elem_of_here|]. split; [lia|].
  split; [reflexivity|]. vm_compute. discriminate.
Qed.

Lemma encode_masked_position_out_of_bounds_witness :
  5 ∈ ex_masked_lm_positions Sample.ex_out_of_range
  /\ Z.of_nat 2 <= 5
  /\ length (ex_masked_lm_labels Sample.ex_out_of_range)
     = length (ex_masked_lm_positions Sample.ex_out_of_range)
  /\ convert_example_to_features Sample.ex_out_of_range Sample.tok 2
     = Raise IndexError.
Proof.
  assert (5 ∈ ex_masked_lm_positions Sample.ex_out_of_range) as Hin
    by (simpl; apply list_elem_of_here).
  assert (Z.of_nat 2 <= 5) as Hle by lia.
  destruct (encode_masked_position_out_of_bounds Sample.tok 2
              Sample.ex_out_of_range 5 Hin Hle) as [Hindex _].
  split; [exact Hin|]. split; [exact Hle|]. split; [reflexivity|].
  apply Hindex. left. reflexivity.
Defined.

(** Five epochs over the two shards of [Fixture.two_different]: epoch 4
    reads shard 0, its two rows and its window of five. *)
Lemma epoch_shard_cycles_witness :
  exists ds,
    PregeneratedDataset_init Fixture.two_different (Z.of_nat 4) Fixture.tok 2
    = Ok ds
    /\ data_epoch ds = 0
    /\ num_samples ds = 2%nat
    /\ seq_len ds = 5%nat
    /\ length (ds_rows ds) = 2%nat
    /\ exists f,
         convert_example_to_features Sample.ex_long Fixture.tok 5 = Ok f
         /\ ds_rows ds !! 1%nat = Some f.
Proof.
  assert (forall s, - 2 ^ 31 <= vocab Fixture.tok s < 2 ^ 31) as Hvocab.
  { intros s. simpl.
    pose proof (Z.mod_pos_bound (Z.of_nat (String.length s)) 30000). lia. }
  assert (forall i : nat, (i < 2)%nat ->
            shard_present Fixture.two_different (Z.of_nat i) = true)
    as Hpresent.
  { intros i Hi. unfold shard_present. simpl.
    apply andb_true_iff. split; apply andb_true_iff; split; lia. }
  destruct (epoch_shard_cycles Fixture.two_different Fixture.tok 5 2 4
              ltac:(lia) Hpresent eq_refl ltac:(lia) Hvocab)
    as (n & samples & Hscan & _ & _ & Hall & Hloads).
  vm_compute in Hscan. injection Hscan as <- <-.
  destruct Hloads as [ds Hds].
  { simpl. each_entry ltac:(vm_compute; exact I). }
  { simpl. lia. }
  exists ds.
  destruct (Hall ds Hds) as (Hdata & Hsamples & Hseq & Hlen & Hrows).
  split; [exact Hds|]. split; [exact Hdata|]. split; [exact Hsamples|].
  split; [exact Hseq|]. split; [exact Hlen|].
  apply (Hrows 1%nat Sample.ex_long). reflexivity.
Defined.

(** Epochs 3 and 4 of that run, read from shard 1 and from shard 0. *)
Example epoch_3_reads_shard_1 :
  PregeneratedDataset_init Fixture.two_different 3 Fixture.tok 2
  = Ok {| ds_epoch := 3;
          data_epoch := 1;
          num_samples := 1;
          seq_len := 3;
          ds_rows := [ {| input_ids := [1; 2; 3];
                          input_mask := [true; true; true];
                          segment_ids := [false; false; false];
                          lm_label_ids := [-1; -1; 6];
                          is_next := false |} ] |}.
Proof. reflexivity. Qed.

Example epoch_4_reads_shard_0 :
  PregeneratedDataset_init Fixture.two_different 4 Fixture.tok 2
  = Ok {| ds_epoch := 4;
          data_epoch := 0;
          num_samples := 2;
          seq_len := 5;
          ds_rows := [ {| input_ids := [1; 2; 3; 0; 0];
                          input_mask := [true; true; true; false; false];
                          segment_ids := [false; true; true; false; false];
                          lm_label_ids := [-1; 4; -1; -1; -1];
                          is_next := true |};
                       {| input_ids := [1; 2; 3; 4; 5];
                          input_mask := [true; true; true; true; true];
                          segment_ids := [false; false; true; true; true];
                          lm_label_ids := [-1; -1; 6; -1; -1];
                          is_next := false |} ] |}.
Proof. reflexivity. Qed.

Example shards_counted :
  count_data_epochs Sample.two_shards 5 = Ok (2, [0%nat; 0%nat]).
Proof. reflexivity. Qed.

(** Twelve teacher layers against four student layers; the layers are
    named by their indices. *)
Example teacher_layers_selected :
  new_teacher_atts (range 12) 3 4 = Ok [2; 5; 8; 11]
  /\ new_teacher_reps (range 13) 3 4 = Ok [0; 3; 6; 9; 12].
Proof. split; reflexivity. Qed.

Lemma layer_alignment_witness :
  layers_per_block (Z.of_nat 12) (Z.of_nat 4) = Ok 3
  /\ exists att_pairs rep_pairs,
       distill_losses Fixture.act_4_12
       = (let* att_loss :=
            for_each (add_loss att_pair_loss) att_pairs 0%Q in
          let* rep_loss :=
            for_each (add_loss rep_pair_loss) rep_pairs 0%Q in
          Ok (att_loss, rep_loss))
       /\ length att_pairs = 4%nat
       /\ length rep_pairs = 5%nat
       /\ (forall i : nat, (i < 4)%nat ->
             exists s t,
               student_atts Fixture.act_4_12 !! i = Some s
               /\ teacher_atts Fixture.act_4_12
                    !! Z.to_nat (Z.of_nat i * 3 + 3 - 1) = Some t
               /\ att_pairs !! i = Some (s, t))
       /\ (forall i : nat, (i <= 4)%nat ->
             exists s t,
               student_reps Fixture.act_4_12 !! i = Some s
               /\ teacher_reps Fixture.act_4_12
                    !! Z.to_nat (Z.of_nat i * 3) = Some t
               /\ rep_pairs !! i = Some (s, t)).
Proof.
  apply (layer_alignment Fixture.act_4_12 12 4);
    first [ reflexivity | lia ].
Defined.

(** On these tensors student layer [i] is at distance [2 i + 2] from its
    teacher layer [3 i + 2], and student representation [i] at distance
    [2 i] from teacher representation [3 i]. *)
Example aligned_losses_value :
  distill_losses Fixture.act_4_12 = Ok (120 # 1, 120 # 1)%Q.
Proof. reflexivity. Qed.

(** Two entries: a sentinel on both sides, which costs nothing whatever
    the two values are, and a pair at distance one; the mean is 1/2. *)
Example attention_sentinel_value :
  att_pair_loss ([-100 # 1; 1 # 2], [-1000 # 1; 3 # 2])%Q = Ok (16 # 32)%Q.
Proof. reflexivity. Qed.

(** Five full batches with [gradient_accumulation_steps = 2]: two updates,
    after the second and the fourth batch. *)
Lemma accumulation_updates_witness :
  1 <= gradient_accumulation_steps (run_args (Sample.run 1 2 1000 0))
  /\ Forall batch_ok (replicate 5 Sample.full_batch)
  /\ exists st',
       train_batches (Sample.run 1 2 1000 0) 0
                     (replicate 5 Sample.full_batch) Sample.fresh = Ok st'
       /\ global_step st' = 2
       /\ update_events (trace st')
          = [EvOptimizerStep; EvZeroGrad; EvOptimizerStep; EvZeroGrad]
       /\ Z.of_nat (updates (Sample.run 1 2 1000 0) 0
                      (replicate 5 Sample.full_batch))
          = Z.of_nat 5 / 2.
Proof.
  assert (1 <= gradient_accumulation_steps (run_args (Sample.run 1 2 1000 0)))
    as HN by (simpl; lia).
  assert (Forall batch_ok (replicate 5 Sample.full_batch)) as Hok.
  { simpl. each_entry ltac:(split; [vm_compute; exact I|discriminate]). }
  split; [exact HN|]. split; [exact Hok|].
  destruct (accumulation_updates (Sample.run 1 2 1000 0) 0
              (replicate 5 Sample.full_batch) Sample.fresh HN)
    as (Hupdates & Hruns & Hcount).
  destruct Hruns as [st' Hrun]; [left; simpl; lia|exact Hok|].
  exists st'. destruct (Hupdates st' Hrun) as [Hstep Htrace].
  split; [exact Hrun|]. split; [exact Hstep|]. split; [exact Htrace|].
  apply Hcount.
  - simpl. lia.
  - simpl. each_entry ltac:(reflexivity).
Defined.

(** A batch on which the student returns attention maps but no
    representation: its losses are computed, the representation loss
    being the number 0 that it started as, and the loop body fails when
    it asks that number for its [item]. *)
Example batch_without_representations :
  distill_losses (activations Fixture.headless_batch) = Ok (0 # 1, 0)%Q
  /\ train_batch (Sample.run 1 2 1000 0) 0 Sample.fresh
                 (0, Fixture.headless_batch)
     = Raise AttributeError.
Proof. split; reflexivity. Qed.

(** Two raw batches with [gradient_accumulation_steps = 2], the second of
    them short: the group is complete, yet the batch that would close it
    is skipped and no update takes place. *)
Lemma accumulation_updates_counterexample :
  1 <= gradient_accumulation_steps (run_args (Sample.run 1 2 1000 0))
  /\ Z.of_nat (length [Sample.full_batch; Sample.short_batch])
     / gradient_accumulation_steps (run_args (Sample.run 1 2 1000 0)) = 1
  /\ exists st',
       train_batches (Sample.run 1 2 1000 0) 0
                     [Sample.full_batch; Sample.short_batch] Sample.fresh
       = Ok st'
       /\ global_step st' = global_step Sample.fresh
       /\ update_events (trace st') = [].
Proof.
  split; [simpl; lia|]. split; [reflexivity|].
  eexists. split; [vm_compute; reflexivity|]. simpl. done.
Qed.

Lemma odd_sized_batch_skipped_witness :
  batch_size Sample.short_batch ≠ per_gpu_batch_size (Sample.run 0 1 1 0)
  /\ train_batch (Sample.run 0 1 1 0) 0 Sample.fresh (0, Sample.short_batch)
     = Ok Sample.fresh.
Proof.
  assert (batch_size Sample.short_batch
          ≠ per_gpu_batch_size (Sample.run 0 1 1 0)) as Hne by (simpl; lia).
  split; [exact Hne|].
  exact (odd_sized_batch_skipped (Sample.run 0 1 1 0) 0 Sample.fresh 0
           Sample.short_batch Hne).
Defined.

(** C1 at a concrete run: two epochs of three full batches, resumed from
    a checkpoint taken in epoch 0 at step 2 with global step 7.  The three
    counters are restored and steps 0 and 1 of epoch 0 are skipped; but
    [ep_step] keeps its value after the resumed epoch, so steps 0 and 1 of
    epoch 1 are skipped as well: of the six batches only two reach the
    forward passes and the global step ends at 9, not 11. *)
Theorem resume_skips_in_every_epoch :
  restore (Some Sample.saved) = (0, 7, 2)
  /\ exists st,
       main (Sample.env 1 (replicate 3 Sample.full_batch) (Some Sample.saved))
            (Sample.args 2 1 1000) = Ok st
       /\ forward_steps (trace st) = [(0, 2); (1, 2)]
       /\ global_step st = 9.
Proof.
  split; [reflexivity|].
  eexists. split; [vm_compute; reflexivity|]. split; reflexivity.
Qed.

(** C8 at a concrete run on rank 0: one epoch of eight full batches with
    [gradient_accumulation_steps = 2] and [eval_step = 2].  The global step
    reaches 4, so two records are due; four are sent, two for each of the
    global steps 1 and 3, because the test on the global step is made for
    every batch and not only when the global step has moved. *)
Theorem eval_record_repeated :
  exists st,
    main (Sample.env 0 (replicate 8 Sample.full_batch) None)
         (Sample.args 1 2 2) = Ok st
    /\ global_step st = 4
    /\ logged_steps (trace st) = [1; 1; 3; 3]
    /\ count_ev is_tracker_log (trace st) = 4.
Proof.
  eexists. split; [vm_compute; reflexivity|]. repeat split.
Qed.

(** * Further properties *)

(** ** Feature encoder *)

Lemma set_at_length {A : Type} (a a' : list A) (idx : list Z) (v : list A) :
  Np.set_at a idx v = Ok a' -> length a' = length a.
Proof.
  unfold Np.set_at.
  destruct (Np.broadcast v (length idx)) as [vs|]; [|discriminate].
  destruct (mapM (norm_index (length a)) idx) as [js|]; [|discriminate].
  intros [= <-]. apply foldl_store_length.
Qed.

Lemma set_at_errors {A : Type} (a : list A) (idx : list Z) (v : list A) e :
  Np.set_at a idx v = Raise e -> e = IndexError \/ e = ValueError.
Proof.
  unfold Np.set_at.
  destruct (Np.broadcast v (length idx)) as [vs|]; [|intros [= <-]; by right].
  destruct (mapM (norm_index (length a)) idx) as [js|]; [discriminate|].
  intros [= <-]. by left.
Qed.

Lemma truncate_tokens_take (tokens : list string) (max_seq_length : nat) :
  truncate_tokens tokens max_seq_length = take max_seq_length tokens.
Proof.
  unfold truncate_tokens. case_decide as H; [done|].
  by rewrite take_ge by lia.
Qed.

Lemma features_lengths (tokenizer : Tokenizer) (max_seq_length : nat)
    (example : Example) (f : InputFeatures) :
  convert_example_to_features example tokenizer max_seq_length = Ok f ->
  length (input_ids f) = max_seq_length
  /\ length (input_mask f) = max_seq_length
  /\ length (segment_ids f) = max_seq_length
  /\ length (lm_label_ids f) = max_seq_length.
Proof.
  rewrite convert_example_to_features_eq.
  pose proof (truncate_tokens_length max_seq_length (ex_tokens example)) as Hle.
  set (tokens := truncate_tokens _ _) in *.
  pose proof (recover_segment_ids_length tokens (ex_segment_ids example)) as Hseg.
  intros Hf. apply bind_ok in Hf as (labels & Hlab & [= <-]). simpl.
  apply set_at_length in Hlab. unfold Np.full in Hlab.
  rewrite length_replicate in Hlab.
  rewrite !length_app, !length_replicate, !length_fmap, Hseg.
  unfold convert_tokens_to_ids. rewrite length_fmap. lia.
Qed.

(** X1: whenever the encoder returns, whatever the length of the token list,
    the four arrays have [max_seq_length] entries. *)
Theorem encode_lengths (tokenizer : Tokenizer) (max_seq_length : nat)
    (example : Example) (f : InputFeatures) :
  convert_example_to_features example tokenizer max_seq_length = Ok f ->
  length (input_ids f) = max_seq_length
  /\ length (input_mask f) = max_seq_length
  /\ length (segment_ids f) = max_seq_length
  /\ length (lm_label_ids f) = max_seq_length.
Proof.
  rewrite convert_example_to_features_eq.
  pose proof (truncate_tokens_length max_seq_length (ex_tokens example)) as Hle.
  set (tokens := truncate_tokens _ _) in *.
  pose proof (recover_segment_ids_length tokens (ex_segment_ids example)) as Hseg.
  intros Hf. apply bind_ok in Hf as (labels & Hlab & [= <-]). simpl.
  pose proof (set_at_length _ _ _ _ Hlab) as Hlen.
  unfold Np.full in Hlen. rewrite length_replicate in Hlen.
  unfold convert_tokens_to_ids.
  rewrite !length_app, !length_replicate, !length_fmap, Hseg. lia.
Qed.

(** X2: the token ids are those of the first [max_seq_length] tokens,
    followed by zeros; the mask covers exactly the kept tokens; the flag is
    copied. *)
Theorem encode_token_ids (tokenizer : Tokenizer) (max_seq_length : nat)
    (example : Example) (f : InputFeatures) :
  convert_example_to_features example tokenizer max_seq_length = Ok f ->
  let kept := take max_seq_length (ex_tokens example) in
  input_ids f
  = (vocab tokenizer <$> kept) ++ replicate (max_seq_length - length kept) 0
  /\ input_mask f
     = replicate (length kept) true
       ++ replicate (max_seq_length - length kept) false
  /\ is_next f = ex_is_random_next example.
Proof.
  rewrite convert_example_to_features_eq, truncate_tokens_take.
  intros Hf kept. apply bind_ok in Hf as (labels & _ & [= <-]). by simpl.
Qed.

(** X3: the segment ids are not cut together with the tokens: an example
    that is too long and has one segment id per token loses all of them. *)
Theorem encode_truncation_clears_segments (tokenizer : Tokenizer)
    (max_seq_length : nat) (example : Example) (f : InputFeatures) :
  (max_seq_length < length (ex_tokens example))%nat ->
  length (ex_segment_ids example) = length (ex_tokens example) ->
  convert_example_to_features example tokenizer max_seq_length = Ok f ->
  segment_ids f = replicate max_seq_length false.
Proof.
  intros Hlong Hsame Hf.
  rewrite convert_example_to_features_eq, truncate_tokens_take in Hf.
  apply bind_ok in Hf as (labels & _ & [= <-]). simpl.
  assert (length (take max_seq_length (ex_tokens example)) = max_seq_length)
    as Hlen by (rewrite length_take; lia).
  unfold recover_segment_ids. rewrite decide_True by lia.
  rewrite as_bool_zeros, Hlen, Nat.sub_diag. apply app_nil_r.
Qed.

Lemma norm_index_mod (n : nat) (p : Z) (j : nat) :
  norm_index n p = Some j -> Z.of_nat j = p mod Z.of_nat n.
Proof.
  intros H. apply norm_index_some in H as [Hj [-> | ->]].
  - by rewrite Z.mod_small by lia.
  - apply (Z.mod_unique _ _ (-1)); lia.
Qed.

(** In a sequence of stores the last one to a position decides. *)
Lemma foldl_store_last {A : Type} (jxs : list (nat * A)) :
  forall (a : list A) (k j : nat) (x : A),
    jxs !! k = Some (j, x) ->
    (forall k' x', (k < k')%nat -> jxs !! k' ≠ Some (j, x')) ->
    (j < length a)%nat ->
    foldl Np.store a jxs !! j = Some x.
Proof.
  induction jxs as [|[j0 x0] jxs IH]; intros a k j x Hk Hlast Hj; [done|].
  destruct k as [|k]; simpl in *.
  - injection Hk as -> ->.
    rewrite foldl_store_untouched.
    + unfold Np.store. simpl. by apply list_lookup_insert_eq.
    + intros Hin. apply list_elem_of_fmap in Hin as ([j' x'] & Hj' & Hin).
      simpl in Hj'. subst j'.
      apply list_elem_of_lookup in Hin as [k' Hk'].
      apply (Hlast (S k') x'); [lia|done].
  - apply (IH _ k); [done| |].
    + intros k' x' Hlt. apply (Hlast (S k') x'). lia.
    + unfold Np.store. by rewrite length_insert.
Qed.

(** X4: a masked position [p] puts the id of its label into the label array,
    at index [p], counted from the end when [p] is negative, provided that
    no other masked position refers to the same entry. *)
Theorem encode_label_written (tokenizer : Tokenizer) (max_seq_length : nat)
    (example : Example) (k : nat) (p : Z) (label : string) :
  Forall (fun q => - Z.of_nat max_seq_length <= q < Z.of_nat max_seq_length)
         (ex_masked_lm_positions example) ->
  length (ex_masked_lm_labels example)
    = length (ex_masked_lm_positions example) ->
  ex_masked_lm_positions example !! k = Some p ->
  ex_masked_lm_labels example !! k = Some label ->
  (forall (k' : nat) (q : Z),
     k' ≠ k -> ex_masked_lm_positions example !! k' = Some q ->
     q mod Z.of_nat max_seq_length ≠ p mod Z.of_nat max_seq_length) ->
  exists f,
    convert_example_to_features example tokenizer max_seq_length = Ok f
    /\ lm_label_ids f !! Z.to_nat (p mod Z.of_nat max_seq_length)
       = Some (vocab tokenizer label).
Proof.
  intros Hrange Hlen Hp Hl Hlast.
  rewrite convert_example_to_features_eq.
  destruct (set_at_ok (Np.full max_seq_length (-1))
              (ex_masked_lm_positions example)
              (convert_tokens_to_ids tokenizer (ex_masked_lm_labels example)))
    as (js & Hjs & ->).
  { unfold Np.full. by rewrite length_replicate. }
  { unfold convert_tokens_to_ids. by rewrite length_fmap. }
  simpl bind. eexists. split; [reflexivity|]. simpl.
  unfold Np.full in *. rewrite length_replicate in Hjs.
  apply mapM_Some in Hjs.
  destruct (Forall2_lookup_l _ _ _ _ _ Hjs Hp) as (j & Hj & Hnorm).
  pose proof (norm_index_mod _ _ _ Hnorm) as Hmod.
  pose proof (norm_index_some _ _ _ Hnorm) as [Hjlt _].
  rewrite <- Hmod, Nat2Z.id.
  apply (foldl_store_last _ _ k).
  - apply lookup_zip_with_Some. exists j, (vocab tokenizer label).
    split; [done|]. split; [done|].
    unfold convert_tokens_to_ids. by rewrite list_lookup_fmap, Hl.
  - intros k' x' Hlt Hk'.
    apply lookup_zip_with_Some in Hk' as (j' & x'' & [= <- <-] & Hj' & _).
    destruct (Forall2_lookup_r _ _ _ _ _ Hjs Hj') as (q & Hq & Hnorm').
    apply (Hlast k' q ltac:(lia) Hq).
    by rewrite <- (norm_index_mod _ _ _ Hnorm'), <- Hmod.
  - by rewrite length_replicate.
Qed.

(** X5: masked positions inside the window with a label list of another
    length, other than a single label, are rejected with the shape error of
    the label write. *)
Theorem encode_label_count_mismatch (tokenizer : Tokenizer)
    (max_seq_length : nat) (example : Example) :
  Forall (fun q => - Z.of_nat max_seq_length <= q < Z.of_nat max_seq_length)
         (ex_masked_lm_positions example) ->
  length (ex_masked_lm_labels example)
    ≠ length (ex_masked_lm_positions example) ->
  length (ex_masked_lm_labels example) ≠ 1%nat ->
  convert_example_to_features example tokenizer max_seq_length
  = Raise ValueError.
Proof.
  intros _ Hne Hone.
  rewrite convert_example_to_features_eq. unfold Np.set_at, Np.broadcast.
  unfold convert_tokens_to_ids. rewrite length_fmap.
  rewrite decide_False by done.
  destruct (ex_masked_lm_labels example) as [|l1 [|l2 ls]]; simpl in *;
    done.
Qed.

(** X6: the assertion of line 82 cannot fail: the only exceptions of the
    encoder are those of the label write. *)
Theorem encode_raises_only_label_errors (tokenizer : Tokenizer)
    (max_seq_length : nat) (example : Example) (e : PyError) :
  convert_example_to_features example tokenizer max_seq_length = Raise e ->
  e = IndexError \/ e = ValueError.
Proof.
  rewrite convert_example_to_features_eq.
  destruct (Np.set_at _ _ _) as [labels|e'] eqn:Hset; simpl; [discriminate|].
  intros [= <-]. by eapply set_at_errors.
Qed.

(** ** Corpus shards and the epoch dataset *)

Lemma scan_shards_samples (c : Corpus) (num_train_epochs available : nat) :
  (0 < available)%nat ->
  (forall i : nat, (i < available)%nat -> shard_present c (Z.of_nat i) = true) ->
  shard_present c (Z.of_nat available) = false ->
  forall (k i : nat) (samples : list nat),
    (i + k = num_train_epochs)%nat -> (i <= available)%nat ->
    scan_shards c num_train_epochs (Z.of_nat <$> seq i k) samples
    = Ok (Z.of_nat (Nat.min available num_train_epochs),
          samples
          ++ ((fun j => num_training_examples (read_metrics c (Z.of_nat j)))
              <$> seq i (Nat.min available num_train_epochs - i))).
Proof.
  intros Hpos Hpresent Habsent.
  induction k as [|k IH]; intros i samples Hsum Hle; simpl.
  - replace (Nat.min available num_train_epochs - i)%nat with 0%nat by lia.
    simpl. rewrite app_nil_r. do 2 f_equal. lia.
  - destruct (decide (i < available)%nat) as [Hlt|Hge].
    + rewrite (Hpresent i Hlt). rewrite IH by lia.
      replace (Nat.min available num_train_epochs - i)%nat
        with (S (Nat.min available num_train_epochs - S i)) by lia.
      simpl. by rewrite <- app_assoc.
    + assert (i = available) as -> by lia.
      rewrite Habsent.
      replace (Z.of_nat available =? 0) with false by (symmetry; lia).
      replace (Nat.min available num_train_epochs - available)%nat
        with 0%nat by lia.
      simpl. rewrite app_nil_r. do 2 f_equal. lia.
Qed.

Lemma count_data_epochs_value (c : Corpus) (num_train_epochs available : nat) :
  (0 < available)%nat ->
  (forall i : nat, (i < available)%nat -> shard_present c (Z.of_nat i) = true) ->
  shard_present c (Z.of_nat available) = false ->
  count_data_epochs c num_train_epochs
  = Ok (Z.of_nat (Nat.min available num_train_epochs),
        (fun j => num_training_examples (read_metrics c (Z.of_nat j)))
        <$> seq 0 (Nat.min available num_train_epochs)).
Proof.
  intros Hpos Hpresent Habsent. unfold count_data_epochs, range.
  rewrite (scan_shards_samples c num_train_epochs available Hpos Hpresent
             Habsent num_train_epochs 0 []) by lia.
  by rewrite Nat.sub_0_r.
Qed.

(** X7: the shard scan returns one sample count per shard that it found, in
    the order of the shards: [samples_per_epoch] has [num_data_epochs]
    entries, and entry [j] is the declared size of shard [j]. *)
Theorem samples_per_found_shard (c : Corpus) (num_train_epochs available : nat) :
  (0 < available)%nat ->
  (forall i : nat, (i < available)%nat -> shard_present c (Z.of_nat i) = true) ->
  shard_present c (Z.of_nat available) = false ->
  exists num_data_epochs samples_per_epoch,
    count_data_epochs c num_train_epochs
    = Ok (num_data_epochs, samples_per_epoch)
    /\ num_data_epochs = Z.of_nat (Nat.min available num_train_epochs)
    /\ Z.of_nat (length samples_per_epoch) = num_data_epochs
    /\ (forall j : nat, (j < Nat.min available num_train_epochs)%nat ->
          samples_per_epoch !! j
          = Some (num_training_examples (read_metrics c (Z.of_nat j)))).
Proof.
  intros Hpos Hpresent Habsent.
  eexists _, _. split.
  { by apply (count_data_epochs_value c num_train_epochs available). }
  split; [done|]. split.
  - by rewrite length_fmap, length_seq.
  - intros j Hj. rewrite list_lookup_fmap, lookup_seq_lt by done. done.
Qed.

(** X8: without the shard of epoch 0 the run ends before anything else is
    looked at, the accumulation flag included. *)
Theorem no_training_data_exits (env : Env) (args : Args) :
  shard_present (corpus env) 0 = false ->
  (0 < num_train_epochs args)%nat ->
  main env args = Raise SystemExit.
Proof.
  intros Habsent Hpos. unfold main, count_data_epochs, range.
  destruct (num_train_epochs args) as [|n]; [lia|].
  change (Z.of_nat <$> seq 0 (S n)) with (0 :: (Z.of_nat <$> seq 1 n)).
  cbn [scan_shards]. by rewrite Habsent.
Qed.

(** X10: a loaded dataset is rectangular: it has as many rows as its metrics
    file declares, and every array of every row has [seq_len] entries. *)
Theorem dataset_rows_shape (c : Corpus) (epoch : Z) (tokenizer : Tokenizer)
    (num_data_epochs : Z) (ds : PregeneratedDataset) :
  PregeneratedDataset_init c epoch tokenizer num_data_epochs = Ok ds ->
  length (ds_rows ds) = dataset_len ds
  /\ dataset_len ds = num_training_examples (read_metrics c (data_epoch ds))
  /\ Forall (fun row =>
               length (input_ids row) = seq_len ds
               /\ length (input_mask row) = seq_len ds
               /\ length (segment_ids row) = seq_len ds
               /\ length (lm_label_ids row) = seq_len ds)
            (ds_rows ds).
Proof.
  intros Hds.
  destruct (dataset_init_ok _ _ _ _ _ Hds) as (_ & _ & _ & Hns & _ & _).
  destruct (dataset_rows_ok _ _ _ _ _ Hds) as (Hlen & Hfit & Hfilled & Hkept).
  split; [done|]. split; [done|].
  apply Forall_lookup. intros j row Hrow.
  assert (j < num_samples ds)%nat as Hj.
  { apply lookup_lt_Some in Hrow. lia. }
  destruct (decide (j < length (read_examples c (data_epoch ds)))%nat)
    as [Hin|Hout].
  - destruct (lookup_lt_is_Some_2 _ _ Hin) as [ex Hex].
    destruct (Hfilled j ex Hex) as (f & Hf & Hrow').
    rewrite Hrow in Hrow'. injection Hrow' as ->.
    by apply (features_lengths tokenizer _ ex).
  - rewrite Hkept in Hrow by lia. injection Hrow as <-.
    unfold empty_row, Np.zeros, Np.zeros_bool, Np.full. simpl.
    by rewrite !length_replicate.
Qed.

(** X11: the number of lines is not compared with the declared number of
    examples: with fewer lines the dataset loads, reports the declared
    length, and the rows that no line filled read as examples made of
    padding only (zero ids, empty mask, labels -1, flag 0). *)
Theorem dataset_missing_lines_stay_empty (c : Corpus) (epoch : Z)
    (tokenizer : Tokenizer) (num_data_epochs : Z) (ds : PregeneratedDataset)
    (i : nat) :
  PregeneratedDataset_init c epoch tokenizer num_data_epochs = Ok ds ->
  (length (read_examples c (data_epoch ds)) <= i < dataset_len ds)%nat ->
  dataset_getitem ds (Z.of_nat i)
  = Ok (replicate (seq_len ds) 0,
        replicate (seq_len ds) 0,
        replicate (seq_len ds) 0,
        replicate (seq_len ds) (-1),
        0).
Proof.
  intros Hds Hi.
  destruct (dataset_rows_ok _ _ _ _ _ Hds) as (Hlen & _ & _ & Hkept).
  unfold dataset_len in Hi. unfold dataset_getitem.
  destruct (py_get_in_range (ds_rows ds) (Z.of_nat i)) as (row & -> & Hrow);
    [lia|].
  rewrite Nat2Z.id, Hkept in Hrow by done. injection Hrow as <-.
  simpl. unfold Np.zeros, Np.zeros_bool, Np.full.
  by rewrite !fmap_replicate.
Qed.

(** X12: reading item [i] of a loaded dataset gives the encoding of line [i]
    of the shard, the mask and the segment ids as integers 0 and 1. The ids
    are stored in 32-bit arrays; the vocabulary is taken to fit. *)
Theorem dataset_getitem_encoding (c : Corpus) (epoch : Z)
    (tokenizer : Tokenizer) (num_data_epochs : Z) (ds : PregeneratedDataset)
    (i : nat) (ex : Example) :
  (forall s, - 2 ^ 31 <= vocab tokenizer s < 2 ^ 31) ->
  PregeneratedDataset_init c epoch tokenizer num_data_epochs = Ok ds ->
  read_examples c (data_epoch ds) !! i = Some ex ->
  exists f,
    convert_example_to_features ex tokenizer (seq_len ds) = Ok f
    /\ dataset_getitem ds (Z.of_nat i)
       = Ok (input_ids f,
             Z.b2z <$> input_mask f,
             Z.b2z <$> segment_ids f,
             lm_label_ids f,
             Z.b2z (is_next f)).
Proof.
  intros _ Hds Hex.
  destruct (dataset_rows_ok _ _ _ _ _ Hds) as (Hlen & Hfit & Hfilled & _).
  destruct (Hfilled i ex Hex) as (f & Hf & Hrow).
  exists f. split; [done|]. unfold dataset_getitem.
  destruct (py_get_in_range (ds_rows ds) (Z.of_nat i)) as (row & -> & Hrow').
  { apply lookup_lt_Some in Hrow. lia. }
  rewrite Nat2Z.id, Hrow in Hrow'. by injection Hrow' as <-.
Qed.

(** X13: with more lines than declared examples, all of them well formed,
    the dataset does not load: the line after the last declared row is
    encoded and then fails to be stored. *)
Theorem dataset_too_many_lines (c : Corpus) (epoch : Z)
    (tokenizer : Tokenizer) (num_data_epochs : Z) :
  let shard := epoch mod num_data_epochs in
  let metrics := read_metrics c shard in
  num_data_epochs ≠ 0 ->
  shard_present c shard = true ->
  Forall (fun ex =>
            is_ok (convert_example_to_features ex tokenizer
                     (max_seq_len metrics)))
         (read_examples c shard) ->
  (num_training_examples metrics < length (read_examples c shard))%nat ->
  PregeneratedDataset_init c epoch tokenizer num_data_epochs
  = Raise IndexError.
Proof.
  intros shard metrics Hnz Hpresent Hlines Hmany.
  unfold PregeneratedDataset_init, data_epoch_of.
  apply Z.eqb_neq in Hnz. rewrite Hnz. simpl bind. fold shard.
  unfold shard_present in Hpresent. rewrite Hpresent. simpl negb. cbv iota.
  fold metrics. unfold enumerate.
  change 0 with (Z.of_nat 0).
  rewrite (load_lines_overflow tokenizer _ _ _ Hlines 0); [done|lia|lia].
Qed.

Lemma dataset_rows_shape_witness :
  exists ds,
    PregeneratedDataset_init Fixture.uneven 0 Fixture.tok 2 = Ok ds
    /\ length (ds_rows ds) = dataset_len ds
    /\ dataset_len ds
       = num_training_examples (read_metrics Fixture.uneven (data_epoch ds))
    /\ Forall (fun row =>
                 length (input_ids row) = seq_len ds
                 /\ length (input_mask row) = seq_len ds
                 /\ length (segment_ids row) = seq_len ds
                 /\ length (lm_label_ids row) = seq_len ds)
              (ds_rows ds).
Proof.
  eexists. split; [vm_compute; reflexivity|].
  apply (dataset_rows_shape Fixture.uneven 0 Fixture.tok 2).
  vm_compute. reflexivity.
Defined.

Lemma dataset_missing_lines_stay_empty_witness :
  exists ds,
    PregeneratedDataset_init Fixture.uneven 0 Fixture.tok 2 = Ok ds
    /\ (length (read_examples Fixture.uneven (data_epoch ds)) <= 2
        < dataset_len ds)%nat
    /\ dataset_getitem ds (Z.of_nat 2)
       = Ok (replicate (seq_len ds) 0, replicate (seq_len ds) 0,
             replicate (seq_len ds) 0, replicate (seq_len ds) (-1), 0).
Proof.
  eexists. split; [vm_compute; reflexivity|].
  split; [simpl; lia|].
  apply (dataset_missing_lines_stay_empty Fixture.uneven 0 Fixture.tok 2).
  - vm_compute. reflexivity.
  - simpl. lia.
Defined.

Lemma dataset_getitem_encoding_witness :
  exists ds f,
    PregeneratedDataset_init Fixture.uneven 0 Fixture.tok 2 = Ok ds
    /\ read_examples Fixture.uneven (data_epoch ds) !! 1%nat
       = Some Sample.ex_long
    /\ convert_example_to_features Sample.ex_long Fixture.tok (seq_len ds)
       = Ok f
    /\ dataset_getitem ds (Z.of_nat 1)
       = Ok (input_ids f, Z.b2z <$> input_mask f, Z.b2z <$> segment_ids f,
             lm_label_ids f, Z.b2z (is_next f)).
Proof.
  assert (forall s, - 2 ^ 31 <= vocab Fixture.tok s < 2 ^ 31) as Hfit.
  { intros s. simpl.
    pose proof (Z.mod_pos_bound (Z.of_nat (String.length s)) 30000). lia. }
  eexists.
  assert (PregeneratedDataset_init Fixture.uneven 0 Fixture.tok 2 = Ok ?[ds])
    as Hds by (vm_compute; reflexivity).
  destruct (dataset_getitem_encoding Fixture.uneven 0 Fixture.tok 2 _ 1
              Sample.ex_long Hfit Hds eq_refl) as (f & Hf & Hget).
  exists f. split; [exact Hds|]. split; [reflexivity|]. split; [exact Hf|].
  exact Hget.
Defined.

Lemma dataset_too_many_lines_witness :
  2 ≠ 0
  /\ shard_present Fixture.uneven (1 mod 2) = true
  /\ PregeneratedDataset_init Fixture.uneven 1 Fixture.tok 2
     = Raise IndexError.
Proof.
  split; [lia|]. split; [reflexivity|].
  apply (dataset_too_many_lines Fixture.uneven 1 Fixture.tok 2).
  - lia.
  - reflexivity.
  - simpl. each_entry ltac:(vm_compute; exact I).
  - simpl. lia.
Defined.

(** ** Distillation loss *)

Lemma sq_err_nonneg (a b : Q) : (0 <= sq_err a b)%Q.
Proof.
  unfold sq_err. destruct (a - b)%Q as [n d].
  unfold Qle. simpl. nia.
Qed.

Lemma Qsum_nonneg (l : list Q) :
  Forall (fun x => (0 <= x)%Q) l -> (0 <= Qsum l)%Q.
Proof.
  induction 1 as [|x l Hx _ IH]; simpl.
  - apply Qle_refl.
  - apply (Qle_trans _ (0 + 0)); [apply Qle_refl|].
    by apply Qplus_le_compat.
Qed.

Lemma loss_mse_nonneg (input target : list Q) (q : Q) :
  loss_mse input target = Ok q -> (0 <= q)%Q.
Proof.
  unfold loss_mse. case_decide; [|discriminate]. intros [= <-].
  unfold Qdiv. apply Qmult_le_0_compat.
  - apply Qsum_nonneg. apply Forall_lookup. intros i x Hx.
    apply lookup_zip_with_Some in Hx as (a & b & -> & _ & _).
    apply sq_err_nonneg.
  - apply Qinv_le_0_compat. unfold Qle. simpl. lia.
Qed.

Lemma add_losses_nonneg (f : list Q * list Q -> Res Q)
    (pairs : list (list Q * list Q)) :
  (forall p q, f p = Ok q -> (0 <= q)%Q) ->
  forall acc total : Q,
    (0 <= acc)%Q ->
    for_each (add_loss f) pairs acc = Ok total -> (0 <= total)%Q.
Proof.
  intros Hf. induction pairs as [|p pairs IH]; intros acc total Hacc Hrun;
    simpl in Hrun.
  - by injection Hrun as <-.
  - apply bind_ok in Hrun as (acc' & Hstep & Hrest).
    unfold add_loss in Hstep. apply bind_ok in Hstep as (q & Hq & [= <-]).
    apply (IH (acc + q)%Q); [|done].
    apply (Qle_trans _ (0 + 0)); [apply Qle_refl|].
    apply Qplus_le_compat; [done|by apply (Hf p)].
Qed.

(** X14: whenever the two losses of a batch are computed, neither of them is
    negative. *)
Theorem distill_losses_nonneg (act : Activations) (att_loss rep_loss : Q) :
  distill_losses act = Ok (att_loss, rep_loss) ->
  (0 <= att_loss)%Q /\ (0 <= rep_loss)%Q.
Proof.
  unfold distill_losses. intros H.
  apply bind_ok in H as (lpb & _ & H).
  apply bind_ok in H as (nta & _ & H).
  apply bind_ok in H as (a & Ha & H).
  apply bind_ok in H as (ntr & _ & H).
  apply bind_ok in H as (r & Hr & [= <- <-]).
  split.
  - eapply (add_losses_nonneg att_pair_loss); [|apply Qle_refl|exact Ha].
    intros p q. unfold att_pair_loss. apply loss_mse_nonneg.
  - eapply (add_losses_nonneg rep_pair_loss); [|apply Qle_refl|exact Hr].
    intros p q. unfold rep_pair_loss. apply loss_mse_nonneg.
Qed.

Lemma zero_sentinel_same_or_masked (x x' : Q) :
  same_or_masked x x' -> zero_sentinel x = zero_sentinel x'.
Proof.
  intros [-> | [Hx Hx']]; [done|].
  by rewrite !zero_sentinel_le.
Qed.

Lemma where_sentinel_same_or_masked (t t' : list Q) :
  Forall2 same_or_masked t t' -> where_sentinel t = where_sentinel t'.
Proof.
  induction 1 as [|x x' t t' Hx _ IH]; [done|].
  unfold where_sentinel in *. rewrite !fmap_cons. f_equal; [|done].
  by apply zero_sentinel_same_or_masked.
Qed.

(** X15: the attention loss of a pair of tensors does not depend on how far
    below the threshold a masked entry is: changing entries that are at or
    below -100 to other values at or below -100, on either side, leaves the
    result as it is. *)
Theorem attention_loss_ignores_masked_values
    (student_att student_att' teacher_att teacher_att' : list Q) :
  Forall2 same_or_masked student_att student_att' ->
  Forall2 same_or_masked teacher_att teacher_att' ->
  att_pair_loss (student_att, teacher_att)
  = att_pair_loss (student_att', teacher_att').
Proof.
  intros Hs Ht. unfold att_pair_loss. simpl.
  by rewrite (where_sentinel_same_or_masked _ _ Hs),
             (where_sentinel_same_or_masked _ _ Ht).
Qed.

Lemma add_losses_ok (f : list Q * list Q -> Res Q)
    (pairs : list (list Q * list Q)) :
  Forall (fun p => is_ok (f p)) pairs ->
  forall acc : Q, is_ok (for_each (add_loss f) pairs acc).
Proof.
  induction 1 as [|p pairs Hp _ IH]; intros acc; simpl; [done|].
  apply is_ok_ex in Hp as [q Hq]. unfold add_loss at 1. rewrite Hq. simpl.
  apply IH.
Qed.

Lemma loss_mse_same_size (n : nat) (input target : list Q) :
  length input = n -> length target = n -> is_ok (loss_mse input target).
Proof.
  intros H1 H2. unfold loss_mse. by rewrite decide_True by congruence.
Qed.

Lemma selected_all_of_size (n k : nat) (layers picked : list (list Q))
    (index : Z -> Z) :
  all_of_size n layers ->
  length picked = k ->
  (forall i : nat, (i < k)%nat ->
     picked !! i = layers !! Z.to_nat (index (Z.of_nat i))
     /\ is_Some (picked !! i)) ->
  all_of_size n picked.
Proof.
  intros Hall Hlen Hpick. apply Forall_lookup. intros i t Ht.
  assert (i < k)%nat as Hi by (apply lookup_lt_Some in Ht; lia).
  destruct (Hpick i Hi) as [Heq _]. rewrite Ht in Heq.
  symmetry in Heq. by eapply (Forall_lookup_1 _ _ _ _ Hall).
Qed.

(** X16: the losses of a batch are computed without an exception when the
    student has at least one layer, the number of teacher layers is a
    positive multiple of it, the teacher returns one representation more
    than it has layers, all attention tensors have one size and all
    representation tensors have one size. *)
Theorem distill_losses_returns (act : Activations) (na nr : nat) :
  let T := length (teacher_atts act) in
  let S := length (student_atts act) in
  (0 < S)%nat -> (0 < T)%nat -> Z.of_nat T mod Z.of_nat S = 0 ->
  length (teacher_reps act) = (T + 1)%nat ->
  all_of_size na (student_atts act) -> all_of_size na (teacher_atts act) ->
  all_of_size nr (student_reps act) -> all_of_size nr (teacher_reps act) ->
  exists att_loss rep_loss, distill_losses act = Ok (att_loss, rep_loss).
Proof.
  intros T S HS HT Hdiv Hreps Hsa Hta Hsr Htr.
  set (lpb := Z.of_nat T / Z.of_nat S).
  assert (Z.of_nat T = Z.of_nat S * lpb) as Hmul.
  { unfold lpb. pose proof (Z.div_mod (Z.of_nat T) (Z.of_nat S)). lia. }
  assert (1 <= lpb) as Hlpb by nia.
  unfold distill_losses. fold T S. unfold layers_per_block.
  replace (Z.of_nat S =? 0) with false by (symmetry; lia).
  rewrite Hdiv. simpl bind. fold lpb.
  destruct (select_layers (teacher_atts act) (fun i => i * lpb + lpb - 1) S)
    as (nta & Hnta & Hlen_a & Hpick_a).
  { intros i Hi. fold T. nia. }
  destruct (select_layers (teacher_reps act) (fun i => i * lpb) (S + 1))
    as (ntr & Hntr & Hlen_r & Hpick_r).
  { intros i Hi. rewrite Hreps. nia. }
  unfold new_teacher_atts, new_teacher_reps. rewrite Hnta. simpl bind.
  pose proof (selected_all_of_size na S _ _ (fun i => i * lpb + lpb - 1)
                Hta Hlen_a Hpick_a) as Hnta_size.
  pose proof (selected_all_of_size nr (S + 1) _ _ (fun i => i * lpb)
                Htr Hlen_r Hpick_r) as Hntr_size.
  assert (Forall (fun p => is_ok (att_pair_loss p))
                 (zip (student_atts act) nta)) as Hatt.
  { apply Forall_forall. intros [s t] Hin.
    unfold att_pair_loss. simpl. apply (loss_mse_same_size na);
      unfold where_sentinel; rewrite length_fmap.
    - apply elem_of_zip_l in Hin.
      by apply (proj1 (Forall_forall _ _) Hsa).
    - apply elem_of_zip_r in Hin.
      by apply (proj1 (Forall_forall _ _) Hnta_size). }
  assert (Forall (fun p => is_ok (rep_pair_loss p))
                 (zip (student_reps act) ntr)) as Hrep.
  { apply Forall_forall. intros [s t] Hin.
    unfold rep_pair_loss. simpl. apply (loss_mse_same_size nr).
    - apply elem_of_zip_l in Hin.
      by apply (proj1 (Forall_forall _ _) Hsr).
    - apply elem_of_zip_r in Hin.
      by apply (proj1 (Forall_forall _ _) Hntr_size). }
  destruct (is_ok_ex _ (add_losses_ok att_pair_loss _ Hatt 0%Q)) as [a ->].
  simpl bind. rewrite Hntr. simpl bind.
  destruct (is_ok_ex _ (add_losses_ok rep_pair_loss _ Hrep 0%Q)) as [r ->].
  simpl. eauto.
Qed.

(** ** Training loop *)

Lemma updates_bound (r : Run) (batches : list Batch) :
  1 <= gradient_accumulation_steps (run_args r) ->
  forall start : Z,
    Z.of_nat (updates r start batches)
    <= (start + Z.of_nat (length batches))
       / gradient_accumulation_steps (run_args r)
       - start / gradient_accumulation_steps (run_args r).
Proof.
  intros HN. induction batches as [|b bs IH]; intros start; simpl updates.
  - simpl. rewrite Z.add_0_r. lia.
  - specialize (IH (start + 1)).
    rewrite (div_succ start _ HN) in IH. simpl length.
    replace (start + 1 + Z.of_nat (length bs))
      with (start + Z.of_nat (S (length bs))) in IH by lia.
    destruct ((start + 1) mod gradient_accumulation_steps (run_args r) =? 0);
      destruct (processed r start b); simpl; lia.
Qed.

(** X17: skipped batches can only remove updates: over the batch loop of an
    epoch the global step never goes back and moves by at most one for every
    [gradient_accumulation_steps] raw batches. *)
Theorem updates_never_exceed_groups (r : Run) (epoch : Z)
    (batches : list Batch) (st st' : TrainState) :
  1 <= gradient_accumulation_steps (run_args r) ->
  train_batches r epoch batches st = Ok st' ->
  global_step st <= global_step st'
  <= global_step st
     + Z.of_nat (length batches) / gradient_accumulation_steps (run_args r).
Proof.
  intros HN Hrun.
  destruct (train_batches_ok_inv _ _ _ _ _ _ Hrun) as (_ & _ & _ & [Hg _] & _).
  pose proof (updates_bound r batches HN 0) as Hb.
  rewrite Z.div_0_l, Z.add_0_l in Hb by lia. lia.
Qed.

(** X18: the forward passes of an epoch run on the processed batches, once
    on each and in their order, and on no other batch. *)
Theorem forward_passes_on_processed_batches (r : Run) (epoch : Z)
    (batches : list Batch) (st st' : TrainState) :
  train_batches r epoch batches st = Ok st' ->
  forward_steps (trace st')
  = forward_steps (trace st) ++ (pair epoch <$> processed_steps r 0 batches).
Proof.
  intros Hrun.
  by destruct (train_batches_ok_inv _ _ _ _ _ _ Hrun) as (_ & _ & Hf & _).
Qed.

(** X19: the step count of an epoch counts its processed batches, and the
    example count is the per-device batch size times the step count. *)
Theorem running_counts (r : Run) (epoch : Z) (batches : list Batch)
    (st st' : TrainState) :
  train_batches r epoch batches (reset_running st) = Ok st' ->
  nb_tr_steps st' = Z.of_nat (length (processed_steps r 0 batches))
  /\ nb_tr_examples st' = per_gpu_batch_size r * nb_tr_steps st'.
Proof.
  intros Hrun.
  destruct (train_batches_ok_inv _ _ _ _ _ _ Hrun) as (Hn & Hx & _).
  simpl in Hn, Hx. split; lia.
Qed.

(** X20: a process whose local rank is not 0 writes no model, no checkpoint
    and no log record during the batch loop, and leaves the checkpoint file
    as it found it. *)
Theorem other_ranks_write_nothing (r : Run) (epoch : Z)
    (batches : list Batch) (st st' : TrainState) :
  run_rank r ≠ 0 ->
  train_batches r epoch batches st = Ok st' ->
  io_events (trace st') = io_events (trace st)
  /\ resume_checkpoint st' = resume_checkpoint st.
Proof.
  intros Hrank Hrun.
  destruct (train_batches_ok_inv _ _ _ _ _ _ Hrun) as (_ & _ & _ & _ & Hio).
  by apply Hio.
Qed.

(** X21: the checkpoint written at a batch records the index of that batch
    and the global step after the batch: a run that starts from it skips the
    batches before that index and processes the batch itself once more. *)
Theorem checkpointed_batch_is_replayed (r : Run) (epoch : Z)
    (st st' : TrainState) (step : Z) (batch : Batch) :
  run_rank r = 0 -> step mod 10 = 0 ->
  processed r step batch = true ->
  train_batch r epoch st (step, batch) = Ok st' ->
  exists snapshot,
    resume_checkpoint st' = Some snapshot
    /\ restore (Some snapshot) = (epoch, global_step st', step)
    /\ processed (resumed_from snapshot r) step batch = true
    /\ (forall earlier b, earlier < step ->
          processed (resumed_from snapshot r) earlier b = false).
Proof.
  intros Hrank Hten Hproc Hrun.
  destruct (train_batch_ok_step _ _ _ _ _ _ Hrun Hproc)
    as (_ & _ & _ & _ & Hsave & _).
  eexists. split; [by apply Hsave|]. split; [done|].
  unfold processed in *. simpl. split.
  - apply andb_true_iff in Hproc as [_ ->].
    by rewrite Z.ltb_irrefl.
  - intros earlier b Hlt. apply Z.ltb_lt in Hlt. by rewrite Hlt.
Qed.

Lemma train_batch_eval_zero (r : Run) (epoch : Z) (st : TrainState)
    (step : Z) (batch : Batch) :
  run_rank r = 0 -> eval_step (run_args r) = 0 ->
  1 <= gradient_accumulation_steps (run_args r) ->
  batch_ok batch -> processed r step batch = true ->
  train_batch r epoch st (step, batch) = Raise ZeroDivisionError.
Proof.
  intros Hrank Hev HN Hok Hproc.
  unfold processed in Hproc. apply andb_true_iff in Hproc as [Hp1 Hp2].
  apply negb_true_iff in Hp1.
  unfold train_batch. simpl. rewrite Hp1, Hp2. simpl.
  apply batch_ok_items in Hok as (att_loss & rep_loss & -> & Hatt & Hrep).
  simpl. rewrite Hatt, Hrep. simpl.
  replace (gradient_accumulation_steps (run_args r) =? 0) with false
    by (symmetry; apply Z.eqb_neq; lia).
  rewrite Hrank. simpl. unfold master_step. by rewrite Hev.
Qed.

(** X22: on local rank 0 an evaluation interval of 0 stops the epoch with a
    division by zero at its first processed batch, when the losses of every
    batch are computed and the student returns at least one representation
    on every batch, so that the batch reaches the logging test. *)
Theorem eval_step_zero_aborts (r : Run) (epoch : Z) (batches : list Batch)
    (st : TrainState) (i : nat) (b : Batch) :
  run_rank r = 0 -> eval_step (run_args r) = 0 ->
  1 <= gradient_accumulation_steps (run_args r) ->
  Forall batch_ok batches ->
  batches !! i = Some b -> processed r (Z.of_nat i) b = true ->
  train_batches r epoch batches st = Raise ZeroDivisionError.
Proof.
  intros Hrank Hev HN Hok. unfold train_batches, enumerate.
  change 0 with (Z.of_nat 0).
  replace (Z.of_nat i) with (Z.of_nat (0 + i)) by lia.
  generalize 0%nat as start. revert st i.
  induction Hok as [|b0 bs Hb0 _ IH]; intros st i start Hi Hproc; [done|].
  simpl. destruct (processed r (Z.of_nat start) b0) eqn:Hp0.
  - by rewrite train_batch_eval_zero.
  - rewrite (train_batch_skipped _ _ _ _ _ Hp0). simpl.
    destruct i as [|i]; simpl in Hi.
    + injection Hi as ->. rewrite Nat.add_0_r in Hproc. congruence.
    + replace (Z.of_nat start + 1) with (Z.of_nat (S start)) by lia.
      apply (IH _ i); [done|].
      by replace (S start + i)%nat with (start + S i)%nat by lia.
Qed.

(** ** The entry point *)

(** X23: once training data is found, an accumulation count below 1 is
    refused with a [ValueError]; a total batch size below the accumulation
    count gives a per-device batch size of 0 and stops the run with a
    division by zero when the number of optimization steps is computed. *)
Theorem main_argument_errors (env : Env) (args : Args) :
  is_ok (count_data_epochs (corpus env) (num_train_epochs args)) ->
  (gradient_accumulation_steps args < 1 -> main env args = Raise ValueError)
  /\ (1 <= gradient_accumulation_steps args ->
      0 <= train_batch_size args < gradient_accumulation_steps args ->
      main env args = Raise ZeroDivisionError).
Proof.
  intros Hdata. apply is_ok_ex in Hdata as [shards Hshards].
  unfold main. rewrite Hshards. simpl bind. split.
  - intros Hlow. apply Z.ltb_lt in Hlow. by rewrite Hlow.
  - intros HN Hsmall.
    replace (gradient_accumulation_steps args <? 1) with false
      by (symmetry; apply Z.ltb_ge; lia).
    by rewrite Z.div_small by lia.
Qed.

(** X24: a checkpoint whose epoch is not below the number of training epochs
    leaves nothing to train: the run restores the global step, enters no
    epoch, and only local rank 0 exports the final model. *)
Theorem resume_after_last_epoch (env : Env) (args : Args)
    (snapshot : Snapshot) :
  is_ok (count_data_epochs (corpus env) (num_train_epochs args)) ->
  1 <= gradient_accumulation_steps args <= train_batch_size args ->
  snapshot_file env = Some snapshot ->
  Z.of_nat (num_train_epochs args) <= snap_epoch snapshot ->
  exists st,
    main env args = Ok st
    /\ global_step st = snap_global_step snapshot
    /\ resume_checkpoint st = Some snapshot
    /\ trace st = if local_rank env =? 0 then [EvSaveFinalModel] else [].
Proof.
  intros Hdata HN Hsnap Hdone. apply is_ok_ex in Hdata as [shards Hshards].
  unfold main. rewrite Hshards. simpl bind.
  replace (gradient_accumulation_steps args <? 1) with false
    by (symmetry; apply Z.ltb_ge; lia).
  assert (1 <= train_batch_size args / gradient_accumulation_steps args)
    as Hsize by (apply Z.div_le_lower_bound; lia).
  replace (train_batch_size args / gradient_accumulation_steps args =? 0)
    with false by (symmetry; apply Z.eqb_neq; lia).
  rewrite Hsnap. simpl restore. cbv beta iota.
  unfold range_from.
  replace (Z.to_nat (Z.of_nat (num_train_epochs args) - snap_epoch snapshot))
    with 0%nat by lia.
  simpl. eexists. split; [reflexivity|].
  destruct (local_rank env =? 0); simpl; done.
Qed.

Lemma py_get_nat {A : Type} (l : list A) (j : nat) (x : A) :
  l !! j = Some x -> py_get l (Z.of_nat j) = Ok x.
Proof.
  intros Hx. pose proof (lookup_lt_Some _ _ _ Hx) as Hj.
  destruct (py_get_in_range l (Z.of_nat j)) as (y & -> & Hy); [lia|].
  rewrite Nat2Z.id, Hx in Hy. by injection Hy as <-.
Qed.

Lemma total_train_examples_from (c : Corpus) (num_train_epochs available : nat)
    (samples : list nat) :
  (0 < available)%nat ->
  samples
  = (fun j => num_training_examples (read_metrics c (Z.of_nat j)))
    <$> seq 0 (Nat.min available num_train_epochs) ->
  forall (k i : nat) (total : Z),
    (i + k = num_train_epochs)%nat ->
    for_each (add_epoch_samples samples) (Z.of_nat <$> seq i k) total
    = Ok (total
          + Z.of_nat
              (sum_list_with
                 (fun e => num_training_examples
                             (read_metrics c
                                (Z.of_nat e mod Z.of_nat available)))
                 (seq i k))).
Proof.
  intros Hpos Hsamples.
  assert (length samples = Nat.min available num_train_epochs) as Hlen.
  { by rewrite Hsamples, length_fmap, length_seq. }
  induction k as [|k IH]; intros i total Hsum; simpl.
  - by rewrite Z.add_0_r.
  - unfold add_epoch_samples at 1. rewrite Hlen.
    replace (Z.of_nat (Nat.min available num_train_epochs) =? 0) with false
      by (symmetry; apply Z.eqb_neq; lia).
    assert (Z.of_nat i mod Z.of_nat (Nat.min available num_train_epochs)
            = Z.of_nat i mod Z.of_nat available) as Hcycle.
    { destruct (Nat.le_gt_cases available num_train_epochs) as [Hle|Hgt].
      - by rewrite Nat.min_l.
      - rewrite Nat.min_r by lia. by rewrite !Z.mod_small by lia. }
    rewrite Hcycle.
    assert (0 <= Z.of_nat i mod Z.of_nat available
            < Z.of_nat (Nat.min available num_train_epochs)) as Hrange.
    { rewrite <- Hcycle. apply Z.mod_pos_bound. lia. }
    rewrite <- (Z2Nat.id (Z.of_nat i mod Z.of_nat available)) at 1 by lia.
    rewrite (py_get_nat samples _
               (num_training_examples
                  (read_metrics c (Z.of_nat i mod Z.of_nat available)))).
    + simpl bind. rewrite IH by lia. f_equal. lia.
    + rewrite Hsamples, list_lookup_fmap, lookup_seq_lt by lia.
      simpl. by rewrite Z2Nat.id by lia.
Qed.

(** X9: the total number of training examples follows the cycling of the
    shards: with the shards of the epochs below [available] on disk it is
    the sum, over the training epochs [e], of the declared size of the shard
    [e mod available] that backs epoch [e]. *)
Theorem total_examples_follow_cycle (c : Corpus)
    (num_train_epochs available : nat) :
  (0 < available)%nat ->
  (forall i : nat, (i < available)%nat -> shard_present c (Z.of_nat i) = true) ->
  shard_present c (Z.of_nat available) = false ->
  exists num_data_epochs samples_per_epoch,
    count_data_epochs c num_train_epochs
    = Ok (num_data_epochs, samples_per_epoch)
    /\ total_train_examples samples_per_epoch num_train_epochs
       = Ok (Z.of_nat
               (sum_list_with
                  (fun e => num_training_examples
                              (read_metrics c
                                 (Z.of_nat e mod Z.of_nat available)))
                  (seq 0 num_train_epochs))).
Proof.
  intros Hpos Hpresent Habsent.
  eexists _, _. split.
  { by apply (count_data_epochs_value c num_train_epochs available). }
  unfold total_train_examples, range.
  by rewrite (total_train_examples_from c num_train_epochs available _ Hpos
                eq_refl num_train_epochs 0 0).
Qed.

(** ** Checkpoints and evaluation records *)

Lemma logged_steps_app (l1 l2 : list Event) :
  logged_steps (l1 ++ l2) = logged_steps l1 ++ logged_steps l2.
Proof.
  induction l1 as [|e l1 IH]; simpl; [done|].
  destruct e; simpl; by rewrite ?IH.
Qed.

Lemma saved_snapshots_app (l1 l2 : list Event) :
  saved_snapshots (l1 ++ l2) = saved_snapshots l1 ++ saved_snapshots l2.
Proof.
  induction l1 as [|e l1 IH]; simpl; [done|].
  destruct e; simpl; by rewrite ?IH.
Qed.

Lemma after_writes_app {A : Type} (before : option A) (w1 w2 : list A) :
  after_writes before (w1 ++ w2) = after_writes (after_writes before w1) w2.
Proof.
  unfold after_writes. destruct w2 as [|a w2 _] using rev_ind.
  - by rewrite app_nil_r.
  - by rewrite app_assoc, !last_snoc.
Qed.

(** The records and the snapshots that one batch adds. *)
Lemma train_batch_ok_records (r : Run) (epoch : Z) (st st' : TrainState)
    (step : Z) (batch : Batch) :
  train_batch r epoch st (step, batch) = Ok st' ->
  exists (logs : list Z) (snapshots : list Snapshot),
    logged_steps (trace st') = logged_steps (trace st) ++ logs
    /\ saved_snapshots (trace st') = saved_snapshots (trace st) ++ snapshots
    /\ resume_checkpoint st' = after_writes (resume_checkpoint st) snapshots
    /\ Forall (fun g => (g + 1) mod eval_step (run_args r) = 0) logs
    /\ Forall (fun s => snap_epoch s = epoch
                        /\ snap_ep_step s mod 10 = 0
                        /\ snap_global_step s <= global_step st')
              snapshots.
Proof.
  intros Hrun.
  destruct (processed r step batch) eqn:Hproc.
  2:{ rewrite (train_batch_skipped _ _ _ _ _ Hproc) in Hrun.
      injection Hrun as <-. exists [], []. rewrite !app_nil_r.
      repeat split; constructor. }
  unfold processed in Hproc. apply andb_true_iff in Hproc as [Hp1 Hp2].
  apply negb_true_iff in Hp1.
  unfold train_batch in Hrun. simpl in Hrun.
  rewrite Hp1, Hp2 in Hrun. simpl in Hrun.
  destruct (distill_losses (activations batch)) as [[att_loss rep_loss]|];
    [|discriminate].
  simpl in Hrun.
  destruct (student_atts (activations batch)); [discriminate|].
  destruct (student_reps (activations batch)); [discriminate|].
  simpl in Hrun.
  destruct (gradient_accumulation_steps (run_args r) =? 0); [discriminate|].
  unfold master_step in Hrun.
  destruct ((step + 1) mod gradient_accumulation_steps (run_args r) =? 0);
    destruct (Z.eqb_spec (run_rank r) 0) as [Hrank|Hrank];
    destruct (Z.eqb_spec (step mod 10) 0) as [Hten|Hten];
    destruct (eval_step (run_args r) =? 0); try discriminate;
    try (match type of Hrun with
         | (if ?x =? 0 then _ else _) = _ =>
             destruct (Z.eqb_spec x 0) as [Hlog|Hlog]
         end);
    injection Hrun as <-;
    simpl; rewrite <- ?app_assoc;
    rewrite ?logged_steps_app, ?saved_snapshots_app; simpl;
    eexists _, _;
    (split; [reflexivity|]); (split; [reflexivity|]);
    (split; [reflexivity|]);
    split; repeat constructor; simpl in *; try done; try lia.
Qed.

Lemma train_batches_ok_records (r : Run) (epoch : Z) (batches : list Batch) :
  forall (start : Z) (st st' : TrainState),
    for_each (train_batch r epoch) (enumerate_from start batches) st = Ok st' ->
    exists (logs : list Z) (snapshots : list Snapshot),
      logged_steps (trace st') = logged_steps (trace st) ++ logs
      /\ saved_snapshots (trace st') = saved_snapshots (trace st) ++ snapshots
      /\ resume_checkpoint st' = after_writes (resume_checkpoint st) snapshots
      /\ Forall (fun g => (g + 1) mod eval_step (run_args r) = 0) logs
      /\ Forall (fun s => snap_epoch s = epoch /\ snap_ep_step s mod 10 = 0)
                snapshots.
Proof.
  induction batches as [|b bs IH]; intros start st st' Hrun; simpl in Hrun.
  - injection Hrun as <-. exists [], []. rewrite !app_nil_r.
    repeat split; constructor.
  - apply bind_ok in Hrun as (st1 & Hstep & Hrest).
    destruct (train_batch_ok_records _ _ _ _ _ _ Hstep)
      as (l1 & s1 & Hl1 & Hs1 & Hc1 & Hfl1 & Hfs1).
    destruct (IH _ _ _ Hrest) as (l2 & s2 & Hl2 & Hs2 & Hc2 & Hfl2 & Hfs2).
    exists (l1 ++ l2), (s1 ++ s2).
    split; [by rewrite Hl2, Hl1, app_assoc|].
    split; [by rewrite Hs2, Hs1, app_assoc|].
    split; [by rewrite Hc2, Hc1, after_writes_app|].
    split; [by apply Forall_app|].
    apply Forall_app. split; [|done].
    eapply Forall_impl; [exact Hfs1|]. intros s (? & ? & _). done.
Qed.

(** X25: every record that the batch loop sends to the tracker carries a
    global step [g] with [(g + 1) mod eval_step = 0]: the records fall one
    optimizer step before the multiples of the evaluation interval. *)
Theorem records_precede_multiples (r : Run) (epoch : Z)
    (batches : list Batch) (st st' : TrainState) :
  train_batches r epoch batches st = Ok st' ->
  exists logs,
    logged_steps (trace st') = logged_steps (trace st) ++ logs
    /\ Forall (fun g => (g + 1) mod eval_step (run_args r) = 0) logs.
Proof.
  intros Hrun.
  destruct (train_batches_ok_records _ _ _ _ _ _ Hrun)
    as (logs & _ & Hl & _ & _ & Hfl & _).
  by exists logs.
Qed.

(** X26: every snapshot written during the batch loop of an epoch records
    that epoch and a step index that is a multiple of 10, and after the loop
    the checkpoint file holds the last snapshot written, or what it held
    before when none was written. *)
Theorem checkpoints_every_ten_batches (r : Run) (epoch : Z)
    (batches : list Batch) (st st' : TrainState) :
  train_batches r epoch batches st = Ok st' ->
  exists snapshots,
    saved_snapshots (trace st') = saved_snapshots (trace st) ++ snapshots
    /\ resume_checkpoint st' = after_writes (resume_checkpoint st) snapshots
    /\ Forall (fun s => snap_epoch s = epoch /\ snap_ep_step s mod 10 = 0)
              snapshots.
Proof.
  intros Hrun.
  destruct (train_batches_ok_records _ _ _ _ _ _ Hrun)
    as (_ & snapshots & _ & Hs & Hc & _ & Hfs).
  by exists snapshots.
Qed.

(** ** One epoch *)

(** X27: an epoch loads the shard that the cycling selects, counts its steps
    from zero whatever the state it starts from, and on local rank 0 ends
    with a model export named after the global step it has reached; on the
    other ranks it writes nothing. *)
Theorem epoch_restarts_counts_and_exports (env : Env) (r : Run)
    (num_data_epochs : Z) (st st' : TrainState) (epoch : Z) :
  train_epoch env r num_data_epochs st epoch = Ok st' ->
  exists ds,
    PregeneratedDataset_init (corpus env) epoch (tokenizer_of env)
                             num_data_epochs = Ok ds
    /\ data_epoch ds = epoch mod num_data_epochs
    /\ nb_tr_steps st'
       = Z.of_nat (length (processed_steps r 0 (dataloader env ds epoch)))
    /\ (run_rank r = 0 ->
        last (trace st') = Some (EvSaveEpochModel (global_step st')))
    /\ (run_rank r ≠ 0 -> io_events (trace st') = io_events (trace st)).
Proof.
  unfold train_epoch. intros Hrun.
  apply bind_ok in Hrun as (ds & Hds & Hrun).
  apply bind_ok in Hrun as (st1 & Hloop & [= <-]).
  exists ds. split; [done|].
  destruct (dataset_init_ok _ _ _ _ _ Hds) as (_ & Hshard & _).
  split; [done|].
  destruct (train_batches_ok_inv _ _ _ _ _ _ Hloop)
    as (Hn & _ & _ & _ & Hio).
  simpl in Hn. split; [|split].
  - destruct (run_rank r =? 0); simpl; lia.
  - intros Hrank. apply Z.eqb_eq in Hrank. rewrite Hrank. simpl.
    by rewrite last_snoc.
  - intros Hrank. destruct (Hio Hrank) as [Hio' _].
    apply Z.eqb_neq in Hrank. by rewrite Hrank.
Qed.

(** ** The further properties at concrete inputs *)

Lemma encode_lengths_witness :
  exists f,
    convert_example_to_features Sample.ex_long Sample.tok 3 = Ok f
    /\ length (input_ids f) = 3%nat
    /\ length (input_mask f) = 3%nat
    /\ length (segment_ids f) = 3%nat
    /\ length (lm_label_ids f) = 3%nat.
Proof.
  eexists. split; [reflexivity|].
  apply (encode_lengths Sample.tok 3 Sample.ex_long). reflexivity.
Defined.

Lemma encode_token_ids_witness :
  exists f,
    convert_example_to_features Sample.ex_short Sample.tok 5 = Ok f
    /\ input_ids f = [1; 2; 3] ++ [0; 0]
    /\ input_mask f = [true; true; true] ++ [false; false]
    /\ is_next f = true.
Proof.
  eexists. split; [reflexivity|].
  apply (encode_token_ids Sample.tok 5 Sample.ex_short). reflexivity.
Defined.

Lemma encode_truncation_clears_segments_witness :
  (3 < length (ex_tokens Sample.ex_long))%nat
  /\ length (ex_segment_ids Sample.ex_long) = length (ex_tokens Sample.ex_long)
  /\ exists f,
       convert_example_to_features Sample.ex_long Sample.tok 3 = Ok f
       /\ segment_ids f = replicate 3 false.
Proof.
  split; [simpl; lia|]. split; [reflexivity|].
  eexists. split; [reflexivity|].
  apply (encode_truncation_clears_segments Sample.tok 3 Sample.ex_long).
  - simpl. lia.
  - reflexivity.
  - reflexivity.
Defined.

(** The position -1 of a window of three is its last entry. *)
Lemma encode_label_written_witness :
  exists f,
    convert_example_to_features Fixture.ex_rewritten Sample.tok 3 = Ok f
    /\ lm_label_ids f !! Z.to_nat (-1 mod Z.of_nat 3)
       = Some (vocab Sample.tok "zzz").
Proof.
  apply (encode_label_written Sample.tok 3 Fixture.ex_rewritten 2 (-1) "zzz").
  - each_entry lia.
  - reflexivity.
  - reflexivity.
  - reflexivity.
  - intros k' q Hne Hq.
    destruct k' as [|[|[|k']]]; simpl in Hq; try lia; try discriminate;
      injection Hq as <-; vm_compute; discriminate.
Defined.

Lemma encode_label_count_mismatch_witness :
  length (ex_masked_lm_labels Fixture.ex_unlabelled)
    ≠ length (ex_masked_lm_positions Fixture.ex_unlabelled)
  /\ convert_example_to_features Fixture.ex_unlabelled Sample.tok 2
     = Raise ValueError.
Proof.
  split; [simpl; lia|].
  apply (encode_label_count_mismatch Sample.tok 2 Fixture.ex_unlabelled).
  - each_entry lia.
  - simpl. lia.
  - simpl. lia.
Defined.

Lemma encode_raises_only_label_errors_witness :
  convert_example_to_features Sample.ex_out_of_range Sample.tok 2
  = Raise IndexError
  /\ (IndexError = IndexError \/ IndexError = ValueError).
Proof.
  split; [reflexivity|].
  apply (encode_raises_only_label_errors Sample.tok 2 Sample.ex_out_of_range).
  reflexivity.
Defined.

Lemma uneven_shards (i : nat) :
  (i < 2)%nat -> shard_present Fixture.uneven (Z.of_nat i) = true.
Proof.
  intros Hi. unfold shard_present. simpl.
  apply andb_true_iff. split; apply andb_true_iff; split; lia.
Defined.

Lemma samples_per_found_shard_witness :
  exists num_data_epochs samples_per_epoch,
    count_data_epochs Fixture.uneven 5 = Ok (num_data_epochs, samples_per_epoch)
    /\ num_data_epochs = Z.of_nat (Nat.min 2 5)
    /\ Z.of_nat (length samples_per_epoch) = num_data_epochs
    /\ (forall j : nat, (j < Nat.min 2 5)%nat ->
          samples_per_epoch !! j
          = Some (num_training_examples
                    (read_metrics Fixture.uneven (Z.of_nat j)))).
Proof.
  apply (samples_per_found_shard Fixture.uneven 5 2).
  - lia.
  - exact uneven_shards.
  - reflexivity.
Defined.

Lemma no_training_data_exits_witness :
  shard_present (corpus Fixture.env_without_data) 0 = false
  /\ main Fixture.env_without_data (Sample.args 3 0 1000) = Raise SystemExit.
Proof.
  split; [reflexivity|].
  apply (no_training_data_exits Fixture.env_without_data (Sample.args 3 0 1000)).
  - reflexivity.
  - simpl. lia.
Defined.

(** Five epochs over shards of three and two examples: 3+2+3+2+3. *)
Lemma total_examples_follow_cycle_witness :
  exists num_data_epochs samples_per_epoch,
    count_data_epochs Fixture.uneven 5 = Ok (num_data_epochs, samples_per_epoch)
    /\ total_train_examples samples_per_epoch 5 = Ok 13.
Proof.
  apply (total_examples_follow_cycle Fixture.uneven 5 2).
  - lia.
  - exact uneven_shards.
  - reflexivity.
Defined.

Lemma distill_losses_nonneg_witness :
  exists att_loss rep_loss,
    distill_losses Fixture.act_2_4 = Ok (att_loss, rep_loss)
    /\ (0 <= att_loss)%Q /\ (0 <= rep_loss)%Q.
Proof.
  eexists _, _. split; [vm_compute; reflexivity|].
  apply (distill_losses_nonneg Fixture.act_2_4). vm_compute. reflexivity.
Defined.

Lemma attention_loss_ignores_masked_values_witness :
  att_pair_loss ([-100 # 1; 1 # 2], [0; -200 # 1])%Q
  = att_pair_loss ([-5000 # 1; 1 # 2], [0; -100 # 1])%Q.
Proof.
  apply attention_loss_ignores_masked_values.
  - constructor; [right; split; vm_compute; discriminate|].
    constructor; [by left|constructor].
  - constructor; [by left|].
    constructor; [right; split; vm_compute; discriminate|constructor].
Defined.

Lemma distill_losses_returns_witness :
  exists att_loss rep_loss,
    distill_losses Fixture.act_2_4 = Ok (att_loss, rep_loss).
Proof.
  apply (distill_losses_returns Fixture.act_2_4 1 1).
  - simpl. lia.
  - simpl. lia.
  - reflexivity.
  - reflexivity.
  - unfold all_of_size. simpl. each_entry ltac:(reflexivity).
  - unfold all_of_size. simpl. each_entry ltac:(reflexivity).
  - unfold all_of_size. simpl. each_entry ltac:(reflexivity).
  - unfold all_of_size. simpl. each_entry ltac:(reflexivity).
Defined.

Lemma updates_never_exceed_groups_witness :
  exists st',
    train_batches (Sample.run 1 4 1000 0) 0 Fixture.twelve Sample.fresh = Ok st'
    /\ global_step Sample.fresh <= global_step st'
       <= global_step Sample.fresh + Z.of_nat (length Fixture.twelve) / 4.
Proof.
  eexists. split; [vm_compute; reflexivity|].
  apply (updates_never_exceed_groups (Sample.run 1 4 1000 0) 0 Fixture.twelve).
  - simpl. lia.
  - vm_compute. reflexivity.
Defined.

Lemma forward_passes_on_processed_batches_witness :
  exists st',
    train_batches (Sample.run 1 4 1000 2) 0 Fixture.twelve Sample.fresh = Ok st'
    /\ forward_steps (trace st')
       = [] ++ (pair 0 <$> [2; 3; 4; 5; 6; 7; 8; 9; 10]).
Proof.
  eexists. split; [vm_compute; reflexivity|].
  apply (forward_passes_on_processed_batches (Sample.run 1 4 1000 2) 0
           Fixture.twelve Sample.fresh).
  vm_compute. reflexivity.
Defined.

Lemma running_counts_witness :
  exists st',
    train_batches (Sample.run 1 4 1000 0) 0 Fixture.twelve
                  (reset_running Sample.fresh) = Ok st'
    /\ nb_tr_steps st' = Z.of_nat 11
    /\ nb_tr_examples st' = 8 * nb_tr_steps st'.
Proof.
  eexists. split; [vm_compute; reflexivity|].
  apply (running_counts (Sample.run 1 4 1000 0) 0 Fixture.twelve Sample.fresh).
  vm_compute. reflexivity.
Defined.

Lemma other_ranks_write_nothing_witness :
  run_rank (Sample.run 1 4 1000 0) ≠ 0
  /\ exists st',
       train_batches (Sample.run 1 4 1000 0) 0 Fixture.twelve Sample.fresh
       = Ok st'
       /\ io_events (trace st') = io_events (trace Sample.fresh)
       /\ resume_checkpoint st' = resume_checkpoint Sample.fresh.
Proof.
  assert (run_rank (Sample.run 1 4 1000 0) ≠ 0) as Hrank by (simpl; lia).
  split; [exact Hrank|].
  eexists. split; [vm_compute; reflexivity|].
  apply (other_ranks_write_nothing (Sample.run 1 4 1000 0) 0 Fixture.twelve
           Sample.fresh _ Hrank).
  vm_compute. reflexivity.
Defined.

Lemma checkpointed_batch_is_replayed_witness :
  exists st' snapshot,
    train_batch (Sample.run 0 1 1000 0) 0 Sample.fresh (0, Sample.full_batch)
    = Ok st'
    /\ resume_checkpoint st' = Some snapshot
    /\ restore (Some snapshot) = (0, global_step st', 0)
    /\ processed (resumed_from snapshot (Sample.run 0 1 1000 0)) 0
                 Sample.full_batch = true
    /\ (forall earlier b, earlier < 0 ->
          processed (resumed_from snapshot (Sample.run 0 1 1000 0)) earlier b
          = false).
Proof.
  eexists.
  assert (train_batch (Sample.run 0 1 1000 0) 0 Sample.fresh
                      (0, Sample.full_batch) = Ok ?[st']) as Hrun
    by (vm_compute; reflexivity).
  destruct (checkpointed_batch_is_replayed (Sample.run 0 1 1000 0) 0
              Sample.fresh _ 0 Sample.full_batch eq_refl eq_refl eq_refl Hrun)
    as (snapshot & Hfile & Hrestore & Hagain & Hbefore).
  exists snapshot. split; [exact Hrun|]. split; [exact Hfile|].
  split; [exact Hrestore|]. split; [exact Hagain|exact Hbefore].
Defined.

Lemma eval_step_zero_aborts_witness :
  train_batches (Sample.run 0 1 0 0) 0
                [Sample.short_batch; Sample.full_batch] Sample.fresh
  = Raise ZeroDivisionError.
Proof.
  apply (eval_step_zero_aborts (Sample.run 0 1 0 0) 0
           [Sample.short_batch; Sample.full_batch] Sample.fresh 1
           Sample.full_batch).
  - reflexivity.
  - reflexivity.
  - simpl. lia.
  - each_entry ltac:(split; [vm_compute; exact I|discriminate]).
  - reflexivity.
  - reflexivity.
Defined.

Lemma main_argument_errors_witness :
  main (Sample.env 0 [] None) (Sample.args 1 0 1000) = Raise ValueError
  /\ main (Sample.env 0 [] None) Fixture.small_batch_args
     = Raise ZeroDivisionError.
Proof.
  split.
  - destruct (main_argument_errors (Sample.env 0 [] None)
                (Sample.args 1 0 1000)) as [Hlow _].
    + vm_compute. exact I.
    + apply Hlow. simpl. lia.
  - destruct (main_argument_errors (Sample.env 0 [] None)
                Fixture.small_batch_args) as [_ Hsmall].
    + vm_compute. exact I.
    + apply Hsmall; simpl; lia.
Defined.

Lemma resume_after_last_epoch_witness :
  exists st,
    main (Sample.env 0 (replicate 3 Sample.full_batch) (Some Fixture.late))
         (Sample.args 2 1 1000) = Ok st
    /\ global_step st = 400
    /\ resume_checkpoint st = Some Fixture.late
    /\ trace st = [EvSaveFinalModel].
Proof.
  apply (resume_after_last_epoch
           (Sample.env 0 (replicate 3 Sample.full_batch) (Some Fixture.late))
           (Sample.args 2 1 1000) Fixture.late).
  - vm_compute. exact I.
  - simpl. lia.
  - reflexivity.
  - simpl. lia.
Defined.

Lemma records_precede_multiples_witness :
  exists st' logs,
    train_batches (Sample.run 0 2 2 0) 0 (replicate 8 Sample.full_batch)
                  Sample.fresh = Ok st'
    /\ logged_steps (trace st') = logged_steps (trace Sample.fresh) ++ logs
    /\ Forall (fun g => (g + 1) mod 2 = 0) logs.
Proof.
  eexists.
  assert (train_batches (Sample.run 0 2 2 0) 0 (replicate 8 Sample.full_batch)
                        Sample.fresh = Ok ?[st']) as Hrun
    by (vm_compute; reflexivity).
  destruct (records_precede_multiples _ _ _ _ _ Hrun) as (logs & Hlogs & Hall).
  exists logs. split; [exact Hrun|]. split; [exact Hlogs|exact Hall].
Defined.

Lemma checkpoints_every_ten_batches_witness :
  exists st' snapshots,
    train_batches (Sample.run 0 4 1000 0) 0 Fixture.twelve Sample.fresh = Ok st'
    /\ saved_snapshots (trace st')
       = saved_snapshots (trace Sample.fresh) ++ snapshots
    /\ resume_checkpoint st'
       = after_writes (resume_checkpoint Sample.fresh) snapshots
    /\ Forall (fun s => snap_epoch s = 0 /\ snap_ep_step s mod 10 = 0)
              snapshots.
Proof.
  eexists.
  assert (train_batches (Sample.run 0 4 1000 0) 0 Fixture.twelve Sample.fresh
          = Ok ?[st']) as Hrun by (vm_compute; reflexivity).
  destruct (checkpoints_every_ten_batches _ _ _ _ _ Hrun)
    as (snapshots & Hsaved & Hfile & Hall).
  exists snapshots. split; [exact Hrun|]. split; [exact Hsaved|].
  split; [exact Hfile|exact Hall].
Defined.

Lemma epoch_restarts_counts_and_exports_witness :
  exists st' ds,
    train_epoch (Sample.env 0 Fixture.twelve None) (Sample.run 0 4 1000 0) 2
                Sample.fresh 3 = Ok st'
    /\ PregeneratedDataset_init Sample.two_shards 3 Sample.tok 2 = Ok ds
    /\ data_epoch ds = 3 mod 2
    /\ nb_tr_steps st' = Z.of_nat 11
    /\ last (trace st') = Some (EvSaveEpochModel (global_step st')).
Proof.
  eexists.
  assert (train_epoch (Sample.env 0 Fixture.twelve None)
                      (Sample.run 0 4 1000 0) 2 Sample.fresh 3 = Ok ?[st'])
    as Hrun by (vm_compute; reflexivity).
  destruct (epoch_restarts_counts_and_exports _ _ _ _ _ _ Hrun)
    as (ds & Hds & Hshard & Hcount & Hexport & _).
  exists ds. split; [exact Hrun|]. split; [exact Hds|].
  split; [exact Hshard|]. split; [exact Hcount|]. by apply Hexport.
Defined.
